(** * ofxstatement-bbva: the spreadsheet statement parser

    A shallow embedding of [src/ofxstatement_bbva/bbva.py]: the locale
    tables, the transaction classifier, the header locator, the row
    extractor and [BBVAParser.parse], followed by the properties the
    specification states about them.

    Python text is modelled as [string] (the UTF-8 bytes of the text), a
    [dict] whose iteration order matters as an association list, an
    exception as the left side of a sum. *)

From Stdlib Require Import List String Ascii Bool Arith ZArith Lia.
From Stdlib Require Import Floats.SpecFloat DecimalString.
Import ListNotations.

Local Open Scope string_scope.
Local Open Scope list_scope.

(** ** Python values held by spreadsheet cells *)

(** A naive [datetime.datetime]. *)
Record datetime := mk_datetime {
  year : nat; month : nat; day : nat;
  hour : nat; minute : nat; second : nat
}.

(** What openpyxl puts in [cell.value]: [None] for an empty cell, [str],
    [int], [float] (a binary64 number, [spec_float] with precision 53 and
    [emax] 1024), [bool] or [datetime]. *)
Inductive pyval :=
| VNone
| VStr (s : string)
| VInt (z : Z)
| VFloat (f : spec_float)
| VBool (b : bool)
| VDate (d : datetime).

(** Python truthiness, as used by [if x:], [not x] and [any(...)]. *)
Definition truthy (v : pyval) : bool :=
  match v with
  | VNone => false
  | VStr s => negb (s =? "")
  | VInt z => negb (z =? 0)%Z
  | VFloat (S754_zero _) => false
  | VFloat _ => true
  | VBool b => b
  | VDate _ => true
  end.

(** ** Exceptions

    [NotTerminated] is not a Python exception: it stands for a [while]
    loop that used up the bound the model gives it. *)

Inductive exn :=
| ValueError (msg : string)
| AssertionError
| AttributeError
| TypeError
| IndexError
| InvalidOperation
| NotTerminated.

Definition result (A : Type) : Type := exn + A.

Definition ret {A} (a : A) : result A := inr a.
Definition raise {A} (e : exn) : result A := inl e.
Definition bind {A B} (m : result A) (k : A -> result B) : result B :=
  match m with
  | inl e => inl e
  | inr a => k a
  end.

Notation "x <- m ;; k" := (bind m (fun x => k))
  (at level 61, m at next level, right associativity).
Notation "' p <- m ;; k" := (bind m (fun p => k))
  (at level 61, p pattern, m at next level, right associativity).

(** ** Locale tables *)

(** [dict.get] on a table with [str] keys; insertion order is kept. *)
Fixpoint assoc_get {A} (tbl : list (string * A)) (k : string) : option A :=
  match tbl with
  | [] => None
  | (k', a) :: rest => if k' =? k then Some a else assoc_get rest k
  end.

(** Exact match mappings. *)
Definition TYPE_MAPPING : list (string * list (string * string)) :=
  [ ("es", [ ("Pago con tarjeta", "POS");
             ("Bizum", "PAYMENT");
             ("Transferencia realizada", "XFER");
             ("Transferencia recibida", "XFER") ]);
    ("it", [ ("Bonifico ricevuto", "XFER");
             ("Bonifico eseguito", "XFER");
             ("Pagamento con carta", "POS");
             ("Prelievo bancomat", "ATM");
             ("Addebito diretto", "DIRECTDEBIT");
             ("Accredito stipendio", "DIRECTDEP");
             ("Commissioni", "FEE") ]) ].

(** Prefix match mappings.  The first Spanish key is written in the source
    with the bytes C3 83 C2 B3 where the accented letter would be: the
    source line reads [Abono BonificaciÃ³n pack]. *)
Definition TYPE_MAPPING_PREFIXES : list (string * list (string * string)) :=
  [ ("es", [ ("Abono BonificaciÃ³n pack", "FEE");
             ("Abono ", "DIRECTDEP");
             ("Adeudo ", "DIRECTDEBIT");
             ("Retirada de efectivo", "ATM") ]);
    ("it", [ ("Trasferimento ", "XFER");
             ("Accredito ", "DIRECTDEP");
             ("Addebito ", "DIRECTDEBIT");
             ("Prelievo ", "ATM");
             ("Commissione ", "FEE");
             ("Bonifico ", "XFER") ]) ].

(** The logical fields, the member names of the [Fields] enum. *)
Inductive Field :=
| VALUE_DATE | DATE | CONCEPT | MOVEMENT
| AMOUNT | CURRENCY | BALANCE | DESCRIPTION.

Definition Field_eqb (a b : Field) : bool :=
  match a, b with
  | VALUE_DATE, VALUE_DATE | DATE, DATE | CONCEPT, CONCEPT
  | MOVEMENT, MOVEMENT | AMOUNT, AMOUNT | CURRENCY, CURRENCY
  | BALANCE, BALANCE | DESCRIPTION, DESCRIPTION => true
  | _, _ => false
  end.

(** Field mappings for different languages. *)
Definition FIELD_MAPPINGS : list (string * list (Field * string)) :=
  [ ("es", [ (VALUE_DATE, "F.Valor");
             (DATE, "Fecha");
             (CONCEPT, "Concepto");
             (MOVEMENT, "Movimiento");
             (AMOUNT, "Importe");
             (CURRENCY, "Divisa");
             (BALANCE, "Disponible");
             (DESCRIPTION, "Observaciones") ]);
    ("it", [ (VALUE_DATE, "Data valuta");
             (DATE, "Data");
             (CONCEPT, "Concetto");
             (MOVEMENT, "Movimento");
             (AMOUNT, "Importo");
             (CURRENCY, "Valuta");
             (BALANCE, "Disponibile");
             (DESCRIPTION, "Osservazioni") ]) ].

(** [locale in TBL.keys()] *)
Definition has_locale {A} (tbl : list (string * A)) (locale : string) : bool :=
  match assoc_get tbl locale with Some _ => true | None => false end.

(** [TBL[locale]]; the constructor's assertions make the key present. *)
Definition table_of {A} (tbl : list (string * list A)) (locale : string)
  : list A :=
  match assoc_get tbl locale with Some t => t | None => [] end.

(** [create_fields_enum]: the members of the [Fields] enum in definition
    order, each with its value. *)
Definition create_fields_enum (locale : string) : list (Field * string) :=
  let locale := if has_locale FIELD_MAPPINGS locale then locale else "es" in
  table_of FIELD_MAPPINGS locale.

(** ** The transaction type classifier *)

(** [tbl.get(key)] for a key that may be any cell value: only a [str] can
    equal one of the table keys. *)
Definition dict_get (tbl : list (string * string)) (key : pyval)
  : option string :=
  match key with
  | VStr s => assoc_get tbl s
  | _ => None
  end.

(** Truthiness of the result of [dict.get]. *)
Definition truthy_opt (o : option string) : bool :=
  match o with
  | Some s => negb (s =? "")
  | None => false
  end.

(** [concept.startswith(prefix)]: only [str] has the method. *)
Definition startswith (concept : pyval) (p : string) : result bool :=
  match concept with
  | VStr s => ret (prefix p s)
  | _ => raise AttributeError
  end.

(** The loop over [TYPE_MAPPING_PREFIXES[locale].items()], with the
    fall-through after it. *)
Fixpoint match_prefixes (tbl : list (string * string)) (concept : pyval)
  : result (string * pyval) :=
  match tbl with
  | [] => ret ("OTHER", VNone)
  | (p, transaction_type) :: rest =>
      b <- startswith concept p ;;
      if b then ret (transaction_type, concept)
      else match_prefixes rest concept
  end.

Definition get_transaction_type (locale : string) (concept movement : pyval)
  : result (string * pyval) :=
  let transaction_type := dict_get (table_of TYPE_MAPPING locale) concept in
  if truthy_opt transaction_type then
    ret (match transaction_type with Some t => t | None => "" end, concept)
  else
    let transaction_type := dict_get (table_of TYPE_MAPPING locale) movement in
    if truthy_opt transaction_type then
      ret (match transaction_type with Some t => t | None => "" end, movement)
    else
      match_prefixes (table_of TYPE_MAPPING_PREFIXES locale) concept.

(** ** Decimal numbers *)

(** [decimal.Decimal]: a finite value is [coef * 10 ^ dexp]. *)
Inductive Decimal :=
| Dec (coef : Z) (dexp : Z)
| DInf (neg : bool)
| DNaN.

(** Truthiness of a [Decimal]: only zero is false. *)
Definition Decimal_truthy (d : Decimal) : bool :=
  match d with
  | Dec c _ => negb (c =? 0)%Z
  | _ => true
  end.


(** [float.as_integer_ratio] on [m * 2 ^ -k]: the fraction in lowest terms
    is [m' / 2 ^ k'] after the common factors of two are removed. *)
Fixpoint lowest_terms (m : positive) (k : nat) {struct k} : positive * nat :=
  match k, m with
  | S k', xO m' => lowest_terms m' k'
  | _, _ => (m, k)
  end.

(** [Decimal(f)] for a [float]: [Decimal.from_float], the lossless
    conversion of the binary value.  With [n / 2 ^ k] the integer ratio of
    [abs(f)], the result has coefficient [n * 5 ^ k] and exponent [-k]. *)
Definition Decimal_from_float (f : spec_float) : Decimal :=
  match f with
  | S754_zero _ => Dec 0 0
  | S754_infinity s => DInf s
  | S754_nan => DNaN
  | S754_finite s m e =>
      let sign := if s then (-1)%Z else 1%Z in
      if (0 <=? e)%Z then Dec (sign * (Zpos m * 2 ^ e)) 0
      else
        let '(n, k) := lowest_terms m (Z.to_nat (- e)) in
        Dec (sign * (Zpos n * 5 ^ Z.of_nat k)) (- Z.of_nat k)
  end.

(** ** The statement model of the ofxstatement library *)

Record Currency := mk_Currency { symbol : pyval }.

Record BankAccount := mk_BankAccount {
  bank_id : string;
  acct_id : string;
  acct_type : string
}.

(** [StatementLine]; [date] is whatever the parser stored there. *)
Record StatementLine := mk_StatementLine {
  id : string;
  date : pyval;
  memo : string;
  amount : option Decimal;
  trntype : string;
  currency : option Currency;
  bank_account_to : option BankAccount
}.

(** [Statement]; [stmt_currency] is its [currency] attribute. *)
Record Statement := mk_Statement {
  lines : list StatementLine;
  stmt_currency : option Currency;
  account_id : string;
  start_balance : option Decimal;
  start_date : option datetime;
  end_balance : option Decimal;
  end_date : option datetime
}.

(** ** What the Python runtime and the libraries provide

    The functions this program calls and whose results it only passes on:
    [datetime.strptime] with the parser's [date_format], the library's
    [parse_decimal] on text, [str] of a float and of a datetime, the SHA-1
    digest behind [generate_transaction_id] and [Decimal] addition in the
    current context. *)
Class Runtime := {
  strptime : string -> option datetime;
  parse_decimal : string -> option Decimal;
  str_float : spec_float -> string;
  str_datetime : datetime -> string;
  hexdigest : datetime -> string -> option Decimal -> string;
  Decimal_add : Decimal -> Decimal -> Decimal
}.

(** ** The worksheet *)

Record Cell := mk_Cell { value : pyval; row : nat; col_idx : nat }.

(** The active worksheet: [grid] holds the cell values row by row; a cell
    outside of it is empty.  Rows and columns are numbered from 1. *)
Record Worksheet := mk_Worksheet { grid : list (list pyval) }.

Definition max_row (ws : Worksheet) : nat := List.length (grid ws).

Definition max_column (ws : Worksheet) : nat :=
  fold_right (fun r m => Nat.max (List.length r) m) 0 (grid ws).

Definition cell_at (ws : Worksheet) (r c : nat) : Cell :=
  mk_Cell (nth (c - 1) (nth (r - 1) (grid ws) []) VNone) r c.

(** The cells of row [r] in columns [min_col .. max_col]. *)
Definition row_cells (ws : Worksheet) (min_col max_col r : nat) : list Cell :=
  map (cell_at ws r) (seq min_col (max_col + 1 - min_col)).

Definition cells_by_row (ws : Worksheet) (min_col min_row max_col max_row : nat)
  : list (list Cell) :=
  map (row_cells ws min_col max_col) (seq min_row (max_row + 1 - min_row)).

(** [ws.iter_rows(min_row=.., min_col=..)]: a bound of 0 counts as not
    given and becomes 1. *)
Definition iter_rows (ws : Worksheet) (min_row min_col : nat)
  : list (list Cell) :=
  cells_by_row ws (if min_col =? 0 then 1 else min_col)%nat
                  (if min_row =? 0 then 1 else min_row)%nat
                  (max_column ws) (max_row ws).

(** [for row in ws]: every row, every column. *)
Definition ws_iter (ws : Worksheet) : list (list Cell) :=
  cells_by_row ws 1 1 (max_column ws) (max_row ws).

(** [ws[r]]: the cells of row [r] in columns 1 to [max_column]; below the
    last row they are all empty. *)
Definition ws_getitem (ws : Worksheet) (r : nat) : list Cell :=
  row_cells ws 1 (max_column ws) r.

(** ** Text helpers *)

(** [str.lower] on the letters A to Z.  The locale headers are made of
    ASCII letters, a dot and a space, and none of them contains a [k], the
    only ASCII letter that a non-ASCII character lowercases to; any other
    character is left as it is. *)
Definition lower_ascii (c : ascii) : ascii :=
  let n := nat_of_ascii c in
  if ((65 <=? n) && (n <=? 90))%nat then ascii_of_nat (n + 32) else c.

Fixpoint lower (s : string) : string :=
  match s with
  | EmptyString => EmptyString
  | String c s' => String (lower_ascii c) (lower s')
  end.

(** [x in xs] for a list of [str]. *)
Definition str_in (x : string) (xs : list string) : bool :=
  existsb (String.eqb x) xs.

(** [v == s] for a cell value and a [str]. *)
Definition eq_str (v : pyval) (s : string) : bool :=
  match v with
  | VStr s' => s' =? s
  | _ => false
  end.

(** [str(z)] for an [int]. *)
Definition str_int (z : Z) : string := NilZero.string_of_int (Z.to_int z).

(** ** The parser *)

Record BBVAParser := mk_BBVAParser {
  locale : string;
  fields : list (Field * string);
  parser_account_id : string;
  _ws : Worksheet
}.

(** [BBVAParser.__init__], given the worksheet [load_workbook] returns. *)
Definition BBVAParser_init (ws : Worksheet) (locale account_id : string)
  : result BBVAParser :=
  if negb (has_locale FIELD_MAPPINGS locale) then raise AssertionError
  else if negb (has_locale TYPE_MAPPING locale) then raise AssertionError
  else if negb (has_locale TYPE_MAPPING_PREFIXES locale) then raise AssertionError
  else ret (mk_BBVAParser locale (create_fields_enum locale) account_id ws).

(** [self.fields.<NAME>.value] *)
Definition field_value (fields : list (Field * string)) (f : Field) : string :=
  match find (fun p => Field_eqb (fst p) f) fields with
  | Some p => snd p
  | None => ""
  end.

(** *** Header location *)

(** The test of the inner loop of [parse]. *)
Definition is_header_cell (fields_values : list string) (cell : Cell) : bool :=
  match value cell with
  | VStr s => str_in (lower s) fields_values
  | _ => false
  end.

(** The two nested loops: the first matching cell of the first row that
    has one gives [(start_row, start_column)]. *)
Fixpoint locate_header (fields_values : list string) (rows : list (list Cell))
  : option (nat * nat) :=
  match rows with
  | [] => None
  | r :: rest =>
      match find (is_header_cell fields_values) r with
      | Some cell => Some (row cell, col_idx cell - 1)
      | None => locate_header fields_values rest
      end
  end.

(** *** The column map [_fields_to_row] *)

Definition column_map := list (Field * nat).

Fixpoint dict_set (d : column_map) (k : Field) (v : nat) : column_map :=
  match d with
  | [] => [(k, v)]
  | (k', v') :: rest =>
      if Field_eqb k' k then (k', v) :: rest else (k', v') :: dict_set rest k v
  end.

Definition dict_lookup (d : column_map) (k : Field) : option nat :=
  match find (fun p => Field_eqb (fst p) k) d with
  | Some p => Some (snd p)
  | None => None
  end.

(** [k in d] *)
Definition dict_mem (d : column_map) (k : Field) : bool :=
  match dict_lookup d k with Some _ => true | None => false end.

(** [for field in self.fields: for cell in header_cells: ...] *)
Definition map_fields (fields : list (Field * string))
  (header_cells : list Cell) (start_column : nat) : column_map :=
  fold_left
    (fun d f =>
       match find (fun cell => eq_str (value cell) (snd f)) header_cells with
       | Some cell => dict_set d (fst f) (col_idx cell - start_column - 1)
       | None => d
       end)
    fields [].

Definition get_field_record (d : column_map) (cells : list Cell) (field : Field)
  : result pyval :=
  match dict_lookup d field with
  | None => ret VNone
  | Some i =>
      match nth_error cells i with
      | Some cell => ret (value cell)
      | None => raise IndexError
      end
  end.

(** *** Row extraction *)

(** The [while True] loop of [split_records]; [fuel] bounds the number of
    iterations. *)
Fixpoint split_records_loop (ws : Worksheet) (start_column : nat)
  (fuel : nat) (row : nat) (cells : list (list Cell))
  : option (list (list Cell)) :=
  match fuel with
  | O => None
  | S fuel' =>
      let line_contents := skipn start_column (ws_getitem ws row) in
      if negb (existsb (fun cell => truthy (value cell)) line_contents)
      then Some cells
      else split_records_loop ws start_column fuel' (row + 1)
             (cells ++ [line_contents])
  end.

Definition split_records (ws : Worksheet) (start_row start_column : nat)
  : option (list (list Cell)) :=
  split_records_loop ws start_column (S (max_row ws)) start_row [].

Section Parser.

Context {RT : Runtime}.

(** [str(v)], as an f-string formats a value. *)
Definition py_str (v : pyval) : string :=
  match v with
  | VNone => "None"
  | VStr s => s
  | VInt z => str_int z
  | VFloat f => str_float f
  | VBool b => if b then "True" else "False"
  | VDate d => str_datetime d
  end.

(** *** Value conversion

    [parse_value(value, field)] is given one definition per [field] the
    parser passes; each ends in the library's [StatementParser.parse_value],
    which returns [None] for [None], parses a [datetime] field with
    [strptime], a [Decimal] field with [parse_decimal], and returns any
    other field as it is.  The ["memo"] branch is not used by [parse]. *)

(** [parse_value(value, "amount")] *)
Definition parse_value_amount (v : pyval) : result (option Decimal) :=
  match v with
  | VInt z => ret (Some (Dec z 0))
  | VBool b => ret (Some (Dec (if b then 1 else 0) 0))
  | VFloat f => ret (Some (Decimal_from_float f))
  | VNone => ret None
  | VStr s =>
      match parse_decimal s with
      | Some d => ret (Some d)
      | None => raise InvalidOperation
      end
  | VDate _ => raise TypeError
  end.

(** [parse_value(value, "date")] *)
Definition parse_value_date (v : pyval) : result pyval :=
  match v with
  | VStr s =>
      match strptime s with
      | Some d => ret (VDate d)
      | None => raise (ValueError "time data does not match format")
      end
  | _ => ret v
  end.

(** [parse_value(value, "currency")] *)
Definition parse_value_currency (v : pyval) : result pyval := ret v.

(** *** Record construction *)

Definition TRANSACTION_TYPES : list string :=
  [ "CREDIT"; "DEBIT"; "INT"; "DIV"; "FEE"; "SRVCHG"; "DEP"; "ATM"; "POS";
    "XFER"; "CHECK"; "PAYMENT"; "CASH"; "DIRECTDEP"; "DIRECTDEBIT";
    "REPEATPMT"; "OTHER" ].

Definition ACCOUNT_TYPE : list string :=
  [ "CHECKING"; "SAVINGS"; "MONEYMRKT"; "CREDITLINE" ].

(** The library's [generate_transaction_id]: it asserts that the date is
    set, formats it with [strftime] and hashes it with the memo and the
    amount. *)
Definition generate_transaction_id (sl : StatementLine) : result string :=
  match date sl with
  | VNone => raise AssertionError
  | VDate d => ret (hexdigest d (memo sl) (amount sl))
  | _ => raise AttributeError
  end.

(** The library's [StatementLine.assert_valid]. *)
Definition assert_valid (sl : StatementLine) : result unit :=
  if negb (str_in (trntype sl) TRANSACTION_TYPES) then raise AssertionError
  else
    match bank_account_to sl with
    | Some acct =>
        if negb (str_in (acct_type acct) ACCOUNT_TYPE) then raise AssertionError
        else if id sl =? "" then raise AssertionError else ret tt
    | None => if id sl =? "" then raise AssertionError else ret tt
    end.

(** [stat_line.id = v] *)
Definition set_id (sl : StatementLine) (v : string) : StatementLine :=
  mk_StatementLine v (date sl) (memo sl) (amount sl) (trntype sl)
    (currency sl) (bank_account_to sl).

(** The memo f-string of [parse_record]. *)
Definition format_memo (type_source movement description : pyval) : string :=
  "[(" ++ py_str type_source ++ ")-(" ++ py_str movement ++ ")] "
       ++ py_str description.

Definition parse_record (locale : string) (d : column_map)
  (_bank_account : option BankAccount) (cells : list Cell)
  : result StatementLine :=
  date_cell <- get_field_record d cells DATE ;;
  date <- parse_value_date date_cell ;;
  amount_cell <- get_field_record d cells AMOUNT ;;
  amount <- parse_value_amount amount_cell ;;
  concept <- get_field_record d cells CONCEPT ;;
  movement <- get_field_record d cells MOVEMENT ;;
  description <- get_field_record d cells DESCRIPTION ;;
  ' (trntype, type_source) <- get_transaction_type locale concept movement ;;
  let memo := format_memo type_source movement description in
  currency_cell <- get_field_record d cells CURRENCY ;;
  currency <- parse_value_currency currency_cell ;;
  let stat_line :=
    mk_StatementLine "" date memo amount trntype
      (if truthy currency then Some (mk_Currency currency) else None)
      _bank_account in
  id <- generate_transaction_id stat_line ;;
  let stat_line := set_id stat_line id in
  _ <- assert_valid stat_line ;;
  ret stat_line.

(** The library's [StatementParser.parse]: one statement line per record,
    appended in order. *)
Fixpoint parse_lines (locale : string) (d : column_map)
  (_bank_account : option BankAccount) (records : list (list Cell))
  : result (list StatementLine) :=
  match records with
  | [] => ret []
  | line :: rest =>
      match line with
      | [] => parse_lines locale d _bank_account rest
      | _ =>
          stmt_line <- parse_record locale d _bank_account line ;;
          _ <- assert_valid stmt_line ;;
          more <- parse_lines locale d _bank_account rest ;;
          ret (stmt_line :: more)
      end
  end.

(** *** Balance extraction *)

(** The body of [for cell in row:]: it does not use [cell]. *)
Fixpoint scan_balance_cells (d : column_map) (_start_column : nat)
  (row remaining : list Cell) (start_balance : option Decimal)
  : result (option Decimal) :=
  match remaining with
  | [] => ret start_balance
  | _ :: rest =>
      balance <- get_field_record d (skipn _start_column row) BALANCE ;;
      start_balance <-
        (if truthy balance then parse_value_amount balance
         else ret start_balance) ;;
      scan_balance_cells d _start_column row rest start_balance
  end.

(** [for row in self._ws.iter_rows(...)] *)
Fixpoint scan_balance (d : column_map) (_start_column : nat)
  (rows : list (list Cell)) (start_balance : option Decimal)
  : result (option Decimal) :=
  match rows with
  | [] => ret start_balance
  | row :: rest =>
      start_balance <-
        scan_balance_cells d _start_column row row start_balance ;;
      scan_balance d _start_column rest start_balance
  end.

(** *** Currency unification *)

(** A reference to a [Currency] object.  [parse_record] builds a new
    object for every statement line that has a currency, so an object is
    told by the position, in [statement.lines], of the line that holds
    it; the second component is the content of the object. *)
Definition currency_ref : Type := (nat * Currency)%type.

(** [sl.currency] for the line [sl] at position [i]. *)
Definition line_currency (i : nat) (sl : StatementLine)
  : option currency_ref :=
  match currency sl with
  | Some c => Some (i, c)
  | None => None
  end.

(** [statement.currency == sl.currency] when [statement.currency] is set.
    The library's [Currency] class defines no [__eq__], so [==] holds
    between an object and itself only. *)
Definition currency_matches (c : currency_ref) (o : option currency_ref)
  : bool :=
  match o with
  | Some c' => (fst c =? fst c')%nat
  | None => false
  end.

(** [for sl in statement.lines: ...] with its [break]; [i] is the
    position of the first line of [lines]. *)
Fixpoint unify_currency (i : nat) (cur : option currency_ref)
  (lines : list StatementLine) : option currency_ref :=
  match lines with
  | [] => cur
  | sl :: rest =>
      match cur with
      | None => unify_currency (S i) (line_currency i sl) rest
      | Some c =>
          if currency_matches c (line_currency i sl)
          then unify_currency (S i) (line_currency i sl) rest
          else None
      end
  end.

(** [statement.currency] after the loop over all the lines, starting
    from a statement without currency. *)
Definition statement_currency (lines : list StatementLine)
  : option Currency :=
  option_map snd (unify_currency 0 None lines).

(** *** Balance recalculation (library) *)

Definition datetime_key (d : datetime) : list nat :=
  [year d; month d; day d; hour d; minute d; second d].

Fixpoint key_ltb (a b : list nat) : bool :=
  match a, b with
  | x :: a', y :: b' => (x <? y)%nat || ((x =? y)%nat && key_ltb a' b')
  | _, _ => false
  end.

Definition datetime_ltb (a b : datetime) : bool :=
  key_ltb (datetime_key a) (datetime_key b).

Definition line_datetime (sl : StatementLine) : result datetime :=
  match date sl with
  | VDate d => ret d
  | _ => raise TypeError
  end.

(** The sum of the amounts of the lines; a line without an amount is
    left out of it. *)
Fixpoint sum_amounts (acc : Decimal) (lines : list StatementLine)
  : result Decimal :=
  match lines with
  | [] => ret acc
  | sl :: rest =>
      match amount sl with
      | Some a => sum_amounts (Decimal_add acc a) rest
      | None => sum_amounts acc rest
      end
  end.

(** [min(sl.date for ...)] and [max(sl.date for ...)], on a first date
    and the lines after it. *)
Fixpoint extreme_date (pick_new : datetime -> datetime -> bool)
  (best : datetime) (lines : list StatementLine) : result datetime :=
  match lines with
  | [] => ret best
  | sl :: rest =>
      d <- line_datetime sl ;;
      extreme_date pick_new (if pick_new d best then d else best) rest
  end.

(** [stmt.start_balance or D(0)] *)
Definition balance_or_zero (b : option Decimal) : Decimal :=
  match b with
  | Some b => if Decimal_truthy b then b else Dec 0 0
  | None => Dec 0 0
  end.

(** The library's [recalculate_balance]. *)
Definition recalculate_balance (stmt : Statement) : result Statement :=
  total_amount <- sum_amounts (Dec 0 0) (lines stmt) ;;
  let start_balance := balance_or_zero (start_balance stmt) in
  let end_balance := Decimal_add start_balance total_amount in
  match lines stmt with
  | [] => raise (ValueError "min() arg is an empty sequence")
  | sl :: rest =>
      d0 <- line_datetime sl ;;
      start_date <- extreme_date datetime_ltb d0 rest ;;
      end_date <- extreme_date (fun d best => datetime_ltb best d) d0 rest ;;
      ret (mk_Statement (lines stmt) (stmt_currency stmt) (account_id stmt)
             (Some start_balance) (Some start_date)
             (Some end_balance) (Some end_date))
  end.

(** *** [BBVAParser.parse] *)

Definition header_not_found (p : BBVAParser) : exn :=
  ValueError ("No compatible header cell found for locale '" ++ locale p
              ++ "'. Expected '" ++ field_value (fields p) VALUE_DATE
              ++ "' or other field headers.").

(** The statement as it stands before [recalculate_balance(statement)]. *)
Definition parse_statement (p : BBVAParser) : result Statement :=
  let fields_values := map (fun f => lower (snd f)) (fields p) in
  match locate_header fields_values (ws_iter (_ws p)) with
  | None => raise (header_not_found p)
  | Some (start_row, start_column) =>
      let d :=
        map_fields (fields p)
          (skipn start_column (ws_getitem (_ws p) start_row)) start_column in
      if negb (dict_mem d DATE)
      then raise (ValueError "No date column found")
      else if negb (dict_mem d AMOUNT)
      then raise (ValueError "No amount column found")
      else if negb (dict_mem d CONCEPT)
      then raise (ValueError "No concept column")
      else
        let _start_row := start_row + 1 in
        let _start_column := start_column in
        start_balance <-
          scan_balance d _start_column
            (iter_rows (_ws p) _start_row _start_column) None ;;
        let _bank_account :=
          Some (mk_BankAccount "MICSITM1XXX" (parser_account_id p) "CHECKING") in
        match split_records (_ws p) _start_row _start_column with
        | None => raise NotTerminated
        | Some records =>
            lines <- parse_lines (locale p) d _bank_account records ;;
            ret (mk_Statement lines (statement_currency lines)
                   (parser_account_id p) start_balance None None None)
        end
  end.

Definition parse (p : BBVAParser) : result Statement :=
  statement <- parse_statement p ;;
  recalculate_balance statement.

End Parser.

(** ** A reference runtime

    An executable instance of [Runtime], used to run the parser on
    concrete documents. *)
Module Reference.

Definition digit_of (c : ascii) : option nat :=
  let n := nat_of_ascii c in
  if ((48 <=? n) && (n <=? 57))%nat then Some (n - 48) else None.

Fixpoint number_of (s : string) (acc : nat) : option nat :=
  match s with
  | EmptyString => Some acc
  | String c s' =>
      match digit_of c with
      | Some n => number_of s' (10 * acc + n)
      | None => None
      end
  end.

(** Splits [s] at each ["/"]. *)
Fixpoint split_slash (s : string) (cur : string) : list string :=
  match s with
  | EmptyString => [cur]
  | String c s' =>
      if (c =? "/")%char then cur :: split_slash s' ""
      else split_slash s' (cur ++ String c "")
  end.

Definition in_range (lo hi n : nat) : bool := ((lo <=? n) && (n <=? hi))%nat.

(** [datetime.strptime(s, "%d/%m/%Y")] on day/month/year text. *)
Definition strptime (s : string) : option datetime :=
  match split_slash s "" with
  | [d; m; y] =>
      if in_range 1 2 (String.length d) && in_range 1 2 (String.length m)
         && (String.length y =? 4)%nat
      then
        match number_of d 0, number_of m 0, number_of y 0 with
        | Some d, Some m, Some y =>
            if in_range 1 31 d && in_range 1 12 m
            then Some (mk_datetime y m d 0 0 0) else None
        | _, _, _ => None
        end
      else None
  | _ => None
  end.

(** Exact addition of finite decimals. *)
Definition Decimal_add (a b : Decimal) : Decimal :=
  match a, b with
  | Dec c1 e1, Dec c2 e2 =>
      let e := Z.min e1 e2 in
      Dec (c1 * 10 ^ (e1 - e) + c2 * 10 ^ (e2 - e)) e
  | DNaN, _ | _, DNaN => DNaN
  | DInf s, _ => DInf s
  | _, DInf s => DInf s
  end.

#[export] Instance runtime : Runtime := {
  strptime := strptime;
  parse_decimal := fun _ => None;
  str_float := fun _ => "<float>";
  str_datetime := fun _ => "<datetime>";
  hexdigest := fun _ m _ => ("sha1:" ++ m)%string;
  Decimal_add := Decimal_add
}.

End Reference.

(** The binary64 number nearest to [n / d], as IEEE division of the two
    integers returns it: the [float] a numeric cell written [n / d] in
    decimal notation holds. *)
Definition double_of_ratio (n : Z) (d : positive) : spec_float :=
  SFdiv 53 1024 (binary_normalize 53 1024 n 0 false)
                (binary_normalize 53 1024 (Zpos d) 0 false).

(** The parser the plugin builds, with its default account, for a
    supported locale and a sheet holding [g]. *)
Definition mk_parser (locale : string) (g : list (list pyval)) : BBVAParser :=
  mk_BBVAParser locale (create_fields_enum locale) "bbva-personal"
    (mk_Worksheet g).

Definition es_header : list pyval :=
  [VStr "Fecha"; VStr "Concepto"; VStr "Movimiento"; VStr "Importe";
   VStr "Divisa"; VStr "Disponible"; VStr "Observaciones"].


(** ** Notions used in the statements *)

(** [self._ws[row][self._start_column:]] *)
Definition line_contents (ws : Worksheet) (start_column r : nat) : list Cell :=
  skipn start_column (ws_getitem ws r).

(** [any(cell.value for cell in line_contents)] for row [r]. *)
Definition has_value (ws : Worksheet) (start_column r : nat) : bool :=
  existsb (fun cell => truthy (value cell)) (line_contents ws start_column r).

(** The account every statement line points to. *)
Definition bank_account_of (p : BBVAParser) : option BankAccount :=
  Some (mk_BankAccount "MICSITM1XXX" (parser_account_id p) "CHECKING").

(** The column map [parse] builds once the header is at [(r, c)]. *)
Definition column_map_of (p : BBVAParser) (r c : nat) : column_map :=
  map_fields (fields p) (skipn c (ws_getitem (_ws p) r)) c.

(** The value has a truthy entry in the locale's exact-type table. *)
Definition exact_match (locale : string) (v : pyval) : bool :=
  truthy_opt (dict_get (table_of TYPE_MAPPING locale) v).

(** The concept is a text that starts with one of the prefixes of [tbl]. *)
Definition starts_with_any (tbl : list (string * string)) (concept : pyval)
  : bool :=
  existsb (fun kv => match concept with
                     | VStr s => prefix (fst kv) s
                     | _ => false
                     end) tbl.

Definition prefix_match (locale : string) (concept : pyval) : bool :=
  starts_with_any (table_of TYPE_MAPPING_PREFIXES locale) concept.

(** The first part of the memo, by the route the classification took:
    the concept or the movement that was found in the exact-type table,
    the concept after a prefix match, and the text of [None] when nothing
    matched. *)
Definition type_source_text {RT : Runtime} (locale : string)
  (concept movement : pyval) : string :=
  if exact_match locale concept then py_str concept
  else if exact_match locale movement then py_str movement
  else if prefix_match locale concept then py_str concept
  else "None".

(** The currency loop on the list of the lines' currencies. *)
Fixpoint unify_list (i : nat) (cur : option currency_ref)
  (cs : list (option Currency)) : option currency_ref :=
  match cs with
  | [] => cur
  | x :: rest =>
      let o := match x with Some c => Some (i, c) | None => None end in
      match cur with
      | None => unify_list (S i) o rest
      | Some c => if currency_matches c o then unify_list (S i) o rest else None
      end
  end.

(** A cell value that is empty, the empty text or the number zero. *)
Definition blank_like (v : pyval) : Prop :=
  v = VNone \/ v = VStr "" \/ v = VInt 0 \/ exists s, v = VFloat (S754_zero s).

(** A cell value that is absent. *)
Definition is_empty (v : pyval) : bool :=
  match v with VNone => true | _ => false end.

(** Every cell of row [r], from the start column onward, is empty. *)
Definition is_empty_row (ws : Worksheet) (start_column r : nat) : bool :=
  forallb (fun cell => is_empty (value cell)) (line_contents ws start_column r).

(** A type tag of the tables: a transaction type of the library, and not
    the default tag. *)
Definition table_tag (t : string) : Prop :=
  str_in t TRANSACTION_TYPES = true /\ t <> "OTHER".

(** ** Sample documents *)

Definition EUR : Currency := mk_Currency (VStr "EUR").
Definition USD : Currency := mk_Currency (VStr "USD").

Definition data_row (day concept : string) (amt : Z) (cur bal : pyval)
  (obs : string) : list pyval :=
  [VStr day; VStr concept; VNone; VInt amt; cur; bal; VStr obs].

Definition blank_row : list pyval :=
  [VNone; VNone; VNone; VNone; VNone; VNone; VNone].

(** Two data rows, a fully empty row, a third data row. *)
Definition blank_row_doc : BBVAParser :=
  mk_parser "es"
    [ es_header;
      data_row "01/03/2024" "Pago con tarjeta" (-20) (VStr "EUR") (VInt 980)
        "Supermercado";
      data_row "02/03/2024" "Bizum" 15 (VStr "EUR") (VInt 995) "Cena";
      blank_row;
      data_row "03/03/2024" "Bizum" 5 (VStr "EUR") (VInt 1000) "Total" ].

(** A data row, a row whose only populated cell is a zero amount, a
    further data row. *)
Definition zero_row_doc : BBVAParser :=
  mk_parser "es"
    [ es_header;
      data_row "01/03/2024" "Pago con tarjeta" (-20) (VStr "EUR") (VInt 980)
        "Supermercado";
      [VNone; VNone; VNone; VInt 0; VNone; VNone; VNone];
      data_row "03/03/2024" "Bizum" 5 (VStr "EUR") (VInt 985) "Cena" ].

(** Two data rows, both with a balance. *)
Definition two_balance_doc : BBVAParser :=
  mk_parser "es"
    [ es_header;
      data_row "02/03/2024" "Bizum" 100 (VStr "EUR") (VInt 1000) "Cena";
      data_row "01/03/2024" "Pago con tarjeta" (-20) (VStr "EUR") (VInt 900)
        "Supermercado" ].

(** Three transactions in EUR. *)
Definition eur_doc : BBVAParser :=
  mk_parser "es"
    [ es_header;
      data_row "01/03/2024" "Bizum" 10 (VStr "EUR") VNone "a";
      data_row "02/03/2024" "Bizum" 20 (VStr "EUR") VNone "b";
      data_row "03/03/2024" "Bizum" 30 (VStr "EUR") VNone "c" ].

(** A transaction in EUR, then one in USD. *)
Definition eur_usd_doc : BBVAParser :=
  mk_parser "es"
    [ es_header;
      data_row "01/03/2024" "Bizum" 10 (VStr "EUR") VNone "a";
      data_row "02/03/2024" "Bizum" 20 (VStr "USD") VNone "b" ].

(** A transaction without a currency, then one in EUR. *)
Definition none_eur_doc : BBVAParser :=
  mk_parser "es"
    [ es_header;
      data_row "01/03/2024" "Bizum" 10 VNone VNone "a";
      data_row "02/03/2024" "Bizum" 20 (VStr "EUR") VNone "b" ].

(** A row whose concept is in no table. *)
Definition other_doc : BBVAParser :=
  mk_parser "es"
    [ es_header;
      data_row "01/03/2024" "Compra" (-20) (VStr "EUR") (VInt 980)
        "Supermercado" ].

(** ** The plugin *)

(** [self.settings.get(key, default)] on the plugin settings, a mapping
    from text to text. *)
Definition settings_get (settings : list (string * string))
  (key default : string) : string :=
  match assoc_get settings key with
  | Some v => v
  | None => default
  end.

(** [BBVAPlugin.get_parser], given the worksheet [load_workbook] returns
    for the file. *)
Definition get_parser (settings : list (string * string)) (ws : Worksheet)
  : result BBVAParser :=
  let language := settings_get settings "language" "es" in
  let account_id := settings_get settings "default_account" "bbva-personal" in
  BBVAParser_init ws language account_id.

(** The sheet column, counted from 1, of the cell that the balance loop
    of [parse] reads in a row: the row tuple of [iter_rows] starts at
    column [start_column], or 1 when that is 0; it is sliced again at
    [start_column] and indexed with the offset [k] of BALANCE. *)
Definition balance_column (start_column k : nat) : nat :=
  (if (start_column =? 0)%nat then 1 else start_column) + start_column + k.

(** A sheet with a title row, whose header row starts in the second
    column. *)
Definition titled_doc : BBVAParser :=
  mk_parser "es"
    [ [VStr "Extracto de cuenta"];
      [VNone; VStr "Fecha"; VStr "Concepto"; VStr "Importe"];
      [VNone; VStr "01/03/2024"; VStr "Bizum"; VInt 10] ].

(** A header row without the amount column. *)
Definition no_amount_doc : BBVAParser :=
  mk_parser "es"
    [ [VStr "Fecha"; VStr "Concepto"; VStr "Disponible"];
      [VStr "01/03/2024"; VStr "Bizum"; VInt 10] ].

(** A sheet whose header row starts in the third column; the balance is
    the fourth column of the table. *)
Definition shifted_doc : BBVAParser :=
  mk_parser "es"
    [ [VNone; VNone; VStr "Fecha"; VStr "Concepto"; VStr "Importe";
       VStr "Disponible"];
      [VNone; VNone; VStr "01/03/2024"; VStr "Bizum"; VInt 10; VInt 110] ].

(** A sheet whose header row starts in the third column; the balance is
    the second column of the table and the amount the third. *)
Definition shifted_balance_doc : BBVAParser :=
  mk_parser "es"
    [ [VNone; VNone; VStr "Fecha"; VStr "Disponible"; VStr "Importe";
       VStr "Concepto"];
      [VNone; VNone; VStr "01/03/2024"; VInt 110; VInt 10; VStr "Bizum"] ].

(** A document without the currency column. *)
Definition no_currency_doc : BBVAParser :=
  mk_parser "es"
    [ [VStr "Fecha"; VStr "Concepto"; VStr "Importe"];
      [VStr "01/03/2024"; VStr "Bizum"; VInt 10];
      [VStr "02/03/2024"; VStr "Compra"; VInt (-3)] ].

(** * Properties *)

(** ** The error monad *)

Lemma bind_inr {A B} (m : result A) (k : A -> result B) (b : B) :
  bind m k = inr b -> exists a, m = inr a /\ k a = inr b.
Proof.
  destruct m as [e | a]; simpl; intros H.
  - discriminate.
  - exists a. split; [reflexivity | exact H].
Qed.

Ltac bind_inv H :=
  let a := fresh "a" in
  let Ha := fresh "Ha" in
  apply bind_inr in H; destruct H as (a & Ha & H).

(** ** The locale tables *)

Lemma BBVAParser_init_supported (g : list (list pyval)) :
  BBVAParser_init (mk_Worksheet g) "es" "bbva-personal"
    = inr (mk_parser "es" g)
  /\ BBVAParser_init (mk_Worksheet g) "it" "bbva-personal"
      = inr (mk_parser "it" g).
Proof.
  split; reflexivity.
Qed.

Lemma assoc_get_In {A} (tbl : list (string * A)) (k : string) (a : A) :
  assoc_get tbl k = Some a -> In (k, a) tbl.
Proof.
  induction tbl as [| [k' a'] tbl IH]; simpl; intros H.
  - discriminate.
  - destruct (String.eqb_spec k' k) as [-> | _].
    + injection H as <-. now left.
    + right. now apply IH.
Qed.

(** Every type tag in the exact and prefix tables is a non-empty text, so
    a hit in a table is always truthy. *)
Lemma table_values_truthy (tbls : list (string * list (string * string)))
  (locale k t : string) :
  Forall (fun lt => Forall (fun kv => (snd kv =? "") = false) (snd lt)) tbls ->
  assoc_get (table_of tbls locale) k = Some t -> (t =? "") = false.
Proof.
  intros Hall Hget. unfold table_of in Hget.
  destruct (assoc_get tbls locale) as [tbl |] eqn:Htbl.
  - apply assoc_get_In in Htbl. apply assoc_get_In in Hget.
    rewrite Forall_forall in Hall. specialize (Hall _ Htbl). simpl in Hall.
    rewrite Forall_forall in Hall. exact (Hall _ Hget).
  - discriminate.
Qed.

Lemma TYPE_MAPPING_truthy (locale k t : string) :
  assoc_get (table_of TYPE_MAPPING locale) k = Some t -> (t =? "") = false.
Proof.
  apply table_values_truthy.
  repeat (constructor; [repeat (constructor; [reflexivity |]); constructor |]).
  constructor.
Qed.

Lemma match_prefixes_first (before after : list (string * string))
  (p t c : string) :
  Forall (fun kv => prefix (fst kv) c = false) before ->
  prefix p c = true ->
  match_prefixes (before ++ (p, t) :: after) (VStr c) = inr (t, VStr c).
Proof.
  induction before as [| [p' t'] before IH]; simpl; intros Hb Hp.
  - now rewrite Hp.
  - inversion Hb as [| ? ? Hhd Htl]; subst. simpl in Hhd. rewrite Hhd.
    now apply IH.
Qed.

Lemma match_prefixes_none (tbl : list (string * string)) (c : string) :
  Forall (fun kv => prefix (fst kv) c = false) tbl ->
  match_prefixes tbl (VStr c) = inr ("OTHER", VNone).
Proof.
  induction tbl as [| [p t] tbl IH]; simpl; intros Hb.
  - reflexivity.
  - inversion Hb as [| ? ? Hhd Htl]; subst. simpl in Hhd. rewrite Hhd.
    now apply IH.
Qed.

Lemma match_prefixes_total (tbl : list (string * string)) (c : string) :
  exists r, match_prefixes tbl (VStr c) = inr r.
Proof.
  induction tbl as [| [p t] tbl IH]; simpl.
  - eexists; reflexivity.
  - destruct (prefix p c); [eexists; reflexivity | exact IH].
Qed.

(** C5: the classifier resolves in a fixed order, first success winning:
    an exact hit of the concept text in the locale's exact-type table,
    then an exact hit of the movement in the same table, then the first
    prefix, in table order, that the concept text starts with, and
    otherwise the tag "OTHER" with no source text; on a concept text it
    never raises. *)
Theorem get_transaction_type_resolution :
  forall (locale c : string) (movement : pyval),
    let exact := table_of TYPE_MAPPING locale in
    let prefixes := table_of TYPE_MAPPING_PREFIXES locale in
    (forall t, assoc_get exact c = Some t ->
       get_transaction_type locale (VStr c) movement = inr (t, VStr c)) /\
    (forall t, assoc_get exact c = None -> dict_get exact movement = Some t ->
       get_transaction_type locale (VStr c) movement = inr (t, movement)) /\
    (forall before p t after,
       assoc_get exact c = None -> dict_get exact movement = None ->
       prefixes = before ++ (p, t) :: after ->
       Forall (fun kv => prefix (fst kv) c = false) before ->
       prefix p c = true ->
       get_transaction_type locale (VStr c) movement = inr (t, VStr c)) /\
    (assoc_get exact c = None -> dict_get exact movement = None ->
       Forall (fun kv => prefix (fst kv) c = false) prefixes ->
       get_transaction_type locale (VStr c) movement = inr ("OTHER", VNone)) /\
    (exists r, get_transaction_type locale (VStr c) movement = inr r).
Proof.
  intros locale c movement exact prefixes.
  assert (Hmv : forall t, dict_get exact movement = Some t ->
                          (t =? "") = false).
  { intros t. destruct movement; simpl; try discriminate.
    apply TYPE_MAPPING_truthy. }
  unfold get_transaction_type. fold exact. fold prefixes. cbn [dict_get].
  repeat split.
  - intros t Hc. rewrite Hc. simpl. now rewrite (TYPE_MAPPING_truthy _ _ _ Hc).
  - intros t Hc Hm. rewrite Hc, Hm. simpl. now rewrite (Hmv _ Hm).
  - intros before p t after Hc Hm Hp Hb Hpc. rewrite Hc, Hm, Hp. simpl.
    now apply match_prefixes_first.
  - intros Hc Hm Hp. rewrite Hc, Hm. simpl. now apply match_prefixes_none.
  - destruct (assoc_get exact c) as [t |] eqn:Hc; simpl.
    + rewrite (TYPE_MAPPING_truthy _ _ _ Hc). eexists; reflexivity.
    + destruct (dict_get exact movement) as [t |] eqn:Hm; simpl.
      * rewrite (Hmv _ eq_refl). eexists; reflexivity.
      * apply match_prefixes_total.
Qed.

Lemma get_transaction_type_resolution_witness :
  get_transaction_type "es" (VStr "Bizum") (VStr "Pago con tarjeta")
    = inr ("PAYMENT", VStr "Bizum")
  /\ get_transaction_type "es" (VStr "Compra") (VStr "Pago con tarjeta")
    = inr ("POS", VStr "Pago con tarjeta")
  /\ get_transaction_type "it" (VStr "Bonifico estero") VNone
    = inr ("XFER", VStr "Bonifico estero")
  /\ get_transaction_type "it" (VStr "Cedola") VNone = inr ("OTHER", VNone).
Proof.
  split; [| split; [| split]].
  - apply (proj1 (get_transaction_type_resolution "es" "Bizum"
                    (VStr "Pago con tarjeta")) "PAYMENT").
    reflexivity.
  - apply (proj1 (proj2 (get_transaction_type_resolution "es" "Compra"
                           (VStr "Pago con tarjeta"))) "POS");
      reflexivity.
  - apply (proj1 (proj2 (proj2 (get_transaction_type_resolution "it"
                                  "Bonifico estero" VNone)))
             [("Trasferimento ", "XFER"); ("Accredito ", "DIRECTDEP");
              ("Addebito ", "DIRECTDEBIT"); ("Prelievo ", "ATM");
              ("Commissione ", "FEE")]
             "Bonifico " "XFER" []);
      try reflexivity.
    repeat (constructor; [reflexivity |]). constructor.
  - apply (proj1 (proj2 (proj2 (proj2 (get_transaction_type_resolution "it"
                                         "Cedola" VNone)))));
      try reflexivity.
    repeat (constructor; [reflexivity |]). constructor.
Defined.

(** C2 (evaluation of the code): in the Spanish prefix table the key of the
    "FEE" entry holds the four bytes C3 83 C2 B3 where the concept text
    "Abono Bonificación pack" has the two bytes C3 B3 of its accented
    letter.  The concept does not start with that key, the next entry
    "Abono " matches, and the classifier answers "DIRECTDEP". *)
Theorem abono_bonificacion_pack_type :
  forall movement : pyval,
    dict_get (table_of TYPE_MAPPING "es") movement = None ->
    prefix "Abono BonificaciÃ³n pack" "Abono Bonificación pack" = false
    /\ get_transaction_type "es" (VStr "Abono Bonificación pack") movement
       = inr ("DIRECTDEP", VStr "Abono Bonificación pack").
Proof.
  intros movement Hm. split; [reflexivity |].
  unfold get_transaction_type. rewrite Hm. reflexivity.
Qed.

Lemma abono_bonificacion_pack_type_witness :
  get_transaction_type "es" (VStr "Abono Bonificación pack") (VStr "Varios")
  = inr ("DIRECTDEP", VStr "Abono Bonificación pack").
Proof.
  apply (abono_bonificacion_pack_type (VStr "Varios")). reflexivity.
Defined.

(** ** Header location *)

Lemma find_app_first {A} (f : A -> bool) (l1 l2 : list A) :
  find f (l1 ++ l2) =
  match find f l1 with Some x => Some x | None => find f l2 end.
Proof.
  induction l1 as [| x l1 IH]; simpl.
  - reflexivity.
  - destruct (f x); [reflexivity | exact IH].
Qed.

Lemma find_none_iff {A} (f : A -> bool) (l : list A) :
  find f l = None <-> (forall x, In x l -> f x = false).
Proof.
  split.
  - apply find_none.
  - induction l as [| x l IH]; simpl; intros H.
    + reflexivity.
    + rewrite (H x (or_introl eq_refl)). apply IH.
      intros y Hy. apply H. now right.
Qed.

Lemma find_first {A} (f : A -> bool) (before after : list A) (x : A) :
  Forall (fun y => f y = false) before -> f x = true ->
  find f (before ++ x :: after) = Some x.
Proof.
  intros Hb Hx. rewrite find_app_first.
  rewrite Forall_forall in Hb.
  rewrite (proj2 (find_none_iff f before) Hb). simpl. now rewrite Hx.
Qed.

(** The nested loops visit the cells in the order of [List.concat rows] and
    stop at the first match. *)
Lemma locate_header_find (fields_values : list string)
  (rows : list (list Cell)) :
  locate_header fields_values rows =
  match find (is_header_cell fields_values) (List.concat rows) with
  | Some cell => Some (row cell, col_idx cell - 1)
  | None => None
  end.
Proof.
  induction rows as [| r rows IH]; simpl.
  - reflexivity.
  - rewrite find_app_first.
    destruct (find (is_header_cell fields_values) r); [reflexivity | exact IH].
Qed.

Lemma str_in_iff (x : string) (xs : list string) :
  str_in x xs = true <-> In x xs.
Proof.
  unfold str_in. rewrite existsb_exists. split.
  - intros (y & Hy & Heq). apply String.eqb_eq in Heq. now subst.
  - intros H. exists x. split; [exact H | apply String.eqb_refl].
Qed.

Lemma is_header_cell_iff (fields : list (Field * string)) (cell : Cell) :
  is_header_cell (map (fun f => lower (snd f)) fields) cell = true <->
  exists s f, value cell = VStr s /\ In f fields /\ lower s = lower (snd f).
Proof.
  unfold is_header_cell. split.
  - destruct (value cell) as [| s | | | |]; try discriminate.
    rewrite str_in_iff, in_map_iff. intros (f & Hf & Hin).
    exists s, f. auto.
  - intros (s & f & -> & Hin & Hlow).
    rewrite str_in_iff, in_map_iff. exists f. auto.
Qed.

Lemma parse_no_header {RT : Runtime} (p : BBVAParser) :
  locate_header (map (fun f => lower (snd f)) (fields p)) (ws_iter (_ws p))
    = None ->
  parse p = inl (header_not_found p).
Proof.
  intros H. unfold parse, parse_statement. now rewrite H.
Qed.

(** C6: the header scan goes through the rows from the top and through
    the cells of a row from the left; the first cell holding a text whose
    lowercase form is the lowercase form of one of the locale's header
    texts gives the header row and the start column (so "FECHA" is a
    header cell for the field text "Fecha"); when the document holds no
    such cell, [parse] raises the header-not-found error. *)
Theorem header_location :
  forall (RT : Runtime) (p : BBVAParser),
    let ws := _ws p in
    let fields_values := map (fun f => lower (snd f)) (fields p) in
    let scan := List.concat (ws_iter ws) in
    scan = flat_map (fun r => map (cell_at ws r) (seq 1 (max_column ws)))
             (seq 1 (max_row ws))
    /\ (forall cell,
          is_header_cell fields_values cell = true <->
          exists s f, value cell = VStr s /\ In f (fields p)
                      /\ lower s = lower (snd f))
    /\ (forall before cell after,
          scan = before ++ cell :: after ->
          Forall (fun c => is_header_cell fields_values c = false) before ->
          is_header_cell fields_values cell = true ->
          locate_header fields_values (ws_iter ws)
            = Some (row cell, col_idx cell - 1))
    /\ ((forall cell, In cell scan -> is_header_cell fields_values cell = false)
        -> parse p = inl (header_not_found p))
    /\ (forall r c,
          is_header_cell (map (fun f => lower (snd f)) (create_fields_enum "es"))
            (mk_Cell (VStr "FECHA") r c) = true).
Proof.
  intros RT p ws fields_values scan.
  split; [| split; [| split; [| split]]].
  - unfold scan, ws_iter, cells_by_row, row_cells.
    rewrite flat_map_concat_map.
    replace (max_row ws + 1 - 1) with (max_row ws) by lia.
    replace (max_column ws + 1 - 1) with (max_column ws) by lia.
    reflexivity.
  - intros cell. apply is_header_cell_iff.
  - intros before cell after Hscan Hb Hc.
    rewrite locate_header_find. fold ws scan. rewrite Hscan.
    now rewrite (find_first _ _ _ _ Hb Hc).
  - intros Hnone. apply parse_no_header.
    rewrite locate_header_find.
    apply find_none_iff in Hnone. fold ws scan fields_values.
    now rewrite Hnone.
  - intros r c. reflexivity.
Qed.

(** C9: a document whose header cells are case variants of the Spanish
    header texts passes header location and is then rejected, since the
    column map is built with exact comparison and stays empty. *)
Theorem case_variant_header_rejected :
  forall RT : Runtime,
  exists p : BBVAParser,
    BBVAParser_init
      (mk_Worksheet [[VStr "FECHA"; VStr "IMPORTE"; VStr "CONCEPTO"];
                     [VStr "01/03/2024"; VInt 10; VStr "Bizum"]])
      "es" "bbva-personal" = inr p
    /\ locate_header (map (fun f => lower (snd f)) (fields p))
         (ws_iter (_ws p)) = Some (1, 0)
    /\ map_fields (fields p) (skipn 0 (ws_getitem (_ws p) 1)) 0 = []
    /\ parse p = inl (ValueError "No date column found").
Proof.
  intros RT. eexists. split; [reflexivity |].
  split; [reflexivity |]. split; reflexivity.
Qed.

Lemma header_location_witness :
  locate_header
    (map (fun f => lower (snd f)) (create_fields_enum "es"))
    (ws_iter (mk_Worksheet [[VStr "Extracto"; VInt 3]; [VNone; VStr "FECHA"]]))
    = Some (2, 1)
  /\ parse (RT := Reference.runtime) (mk_parser "es" [[VStr "Extracto"]])
     = inl (ValueError "No compatible header cell found for locale 'es'. Expected 'F.Valor' or other field headers.").
Proof.
  split.
  - apply (proj1 (proj2 (proj2
             (header_location Reference.runtime
                (mk_parser "es" [[VStr "Extracto"; VInt 3];
                                 [VNone; VStr "FECHA"]]))))
             [mk_Cell (VStr "Extracto") 1 1; mk_Cell (VInt 3) 1 2;
              mk_Cell VNone 2 1]
             (mk_Cell (VStr "FECHA") 2 2) []).
    + reflexivity.
    + repeat (constructor; [reflexivity |]). constructor.
    + reflexivity.
  - apply (proj1 (proj2 (proj2 (proj2
             (header_location Reference.runtime
                (mk_parser "es" [[VStr "Extracto"]])))))).
    intros cell [<- | []]. reflexivity.
Defined.

(** ** Row extraction *)

Lemma In_skipn_In {A} (n : nat) (l : list A) (x : A) :
  In x (skipn n l) -> In x l.
Proof.
  intros H. rewrite <- (firstn_skipn n l). apply in_or_app. now right.
Qed.

Lemma cell_below_sheet (ws : Worksheet) (r c : nat) :
  max_row ws < r -> value (cell_at ws r c) = VNone.
Proof.
  intros H. unfold cell_at, max_row in *. simpl.
  rewrite (nth_overflow (grid ws)) by lia. now destruct (c - 1).
Qed.

Lemma has_value_in_sheet (ws : Worksheet) (start_column r : nat) :
  has_value ws start_column r = true -> r <= max_row ws.
Proof.
  intros H. destruct (Nat.le_gt_cases r (max_row ws)) as [Hle | Hgt].
  - exact Hle.
  - exfalso. unfold has_value, line_contents in H.
    apply existsb_exists in H. destruct H as (cell & Hin & Ht).
    apply In_skipn_In in Hin. unfold ws_getitem, row_cells in Hin.
    apply in_map_iff in Hin. destruct Hin as (c & <- & _).
    rewrite (cell_below_sheet ws r c Hgt) in Ht. discriminate.
Qed.

Lemma split_records_loop_spec (ws : Worksheet) (start_column : nat) :
  forall (n fuel r : nat) (cells : list (list Cell)),
    (forall i, i < n -> has_value ws start_column (r + i) = true) ->
    has_value ws start_column (r + n) = false ->
    n < fuel ->
    split_records_loop ws start_column fuel r cells
    = Some (cells ++ map (line_contents ws start_column) (seq r n)).
Proof.
  induction n as [| n IH]; intros fuel r cells Hrows Hend Hfuel;
    (destruct fuel as [| fuel]; [lia |]); simpl.
  - rewrite Nat.add_0_r in Hend. fold (line_contents ws start_column r).
    fold (has_value ws start_column r). rewrite Hend. simpl.
    now rewrite app_nil_r.
  - fold (line_contents ws start_column r).
    fold (has_value ws start_column r).
    rewrite <- (Nat.add_0_r r) at 1. rewrite (Hrows 0) by lia. simpl.
    rewrite IH.
    + rewrite <- app_assoc. simpl. now rewrite Nat.add_1_r.
    + intros i Hi. replace (r + 1 + i) with (r + S i) by lia.
      apply Hrows. lia.
    + replace (r + 1 + n) with (r + S n) by lia. exact Hend.
    + lia.
Qed.

(** The rows returned are those from [start_row] up to the first row
    without a truthy cell; the loop always leaves through its [break]. *)
Lemma split_records_spec (ws : Worksheet) (start_row start_column n : nat) :
  1 <= start_row ->
  (forall i, i < n -> has_value ws start_column (start_row + i) = true) ->
  has_value ws start_column (start_row + n) = false ->
  split_records ws start_row start_column
  = Some (map (line_contents ws start_column) (seq start_row n)).
Proof.
  intros Hsr Hrows Hend. unfold split_records.
  rewrite (split_records_loop_spec ws start_column n); auto.
  destruct n as [| n]; [lia |].
  pose proof (has_value_in_sheet ws start_column (start_row + n)
                (Hrows n (Nat.lt_succ_diag_r n))).
  lia.
Qed.

Lemma first_row_without_value (ws : Worksheet) (start_column : nat) :
  forall (dist start_row : nat),
    has_value ws start_column (start_row + dist) = false ->
    exists n, n <= dist
      /\ (forall i, i < n -> has_value ws start_column (start_row + i) = true)
      /\ has_value ws start_column (start_row + n) = false.
Proof.
  induction dist as [| dist IH]; intros start_row Hend.
  - exists 0. split; [lia |]. split; [intros i Hi; lia | exact Hend].
  - destruct (has_value ws start_column start_row) eqn:Hhere.
    + destruct (IH (S start_row)) as (n & Hn & Hrows & Hstop).
      { replace (S start_row + dist) with (start_row + S dist) by lia.
        exact Hend. }
      exists (S n). split; [lia |]. split.
      * intros [| i] Hi.
        -- now rewrite Nat.add_0_r.
        -- replace (start_row + S i) with (S start_row + i) by lia.
           apply Hrows. lia.
      * replace (start_row + S n) with (S start_row + n) by lia. exact Hstop.
    + exists 0. split; [lia |]. split; [intros i Hi; lia |].
      now rewrite Nat.add_0_r.
Qed.

(** [split_records] returns: the bound of the model is never reached. *)
Lemma split_records_terminates (ws : Worksheet) (start_row start_column : nat) :
  1 <= start_row ->
  exists n, split_records ws start_row start_column
            = Some (map (line_contents ws start_column) (seq start_row n)).
Proof.
  intros Hsr.
  destruct (first_row_without_value ws start_column (S (max_row ws)) start_row)
    as (n & _ & Hrows & Hstop).
  - destruct (has_value ws start_column (start_row + S (max_row ws))) eqn:H;
      [| reflexivity].
    apply has_value_in_sheet in H. lia.
  - exists n. now apply split_records_spec.
Qed.

(** In [parse] the rows are read from the row below the header: the loop
    of [split_records] ends there within its bound. *)
Lemma split_records_below_header (ws : Worksheet) (r c : nat) :
  exists n, split_records ws (r + 1) c
            = Some (map (line_contents ws c) (seq (r + 1) n)).
Proof.
  apply split_records_terminates. lia.
Qed.

(** ** Inversion of a successful [parse] *)

Section ParseFacts.

Context {RT : Runtime}.

Lemma parse_statement_inv (p : BBVAParser) (st : Statement) :
  parse_statement p = inr st ->
  exists r c records,
    locate_header (map (fun f => lower (snd f)) (fields p)) (ws_iter (_ws p))
      = Some (r, c)
    /\ dict_mem (column_map_of p r c) DATE = true
    /\ dict_mem (column_map_of p r c) AMOUNT = true
    /\ dict_mem (column_map_of p r c) CONCEPT = true
    /\ scan_balance (column_map_of p r c) c (iter_rows (_ws p) (r + 1) c) None
       = inr (start_balance st)
    /\ split_records (_ws p) (r + 1) c = Some records
    /\ parse_lines (locale p) (column_map_of p r c) (bank_account_of p) records
       = inr (lines st)
    /\ stmt_currency st = statement_currency (lines st).
Proof.
  unfold parse_statement. intros H.
  destruct (locate_header _ _) as [[r c] |]; [| discriminate].
  exists r, c. fold (column_map_of p r c) in H.
  destruct (dict_mem (column_map_of p r c) DATE); [| discriminate].
  destruct (dict_mem (column_map_of p r c) AMOUNT); [| discriminate].
  destruct (dict_mem (column_map_of p r c) CONCEPT); [| discriminate].
  simpl in H. bind_inv H.
  destruct (split_records (_ws p) (r + 1) c) as [records |]; [| discriminate].
  exists records. fold (bank_account_of p) in H. bind_inv H.
  injection H as <-. simpl. repeat split; auto.
Qed.

Lemma recalculate_balance_keeps (st0 st : Statement) :
  recalculate_balance st0 = inr st ->
  lines st = lines st0 /\ stmt_currency st = stmt_currency st0
  /\ start_balance st = Some (balance_or_zero (start_balance st0)).
Proof.
  unfold recalculate_balance. intros H. bind_inv H.
  destruct (lines st0) as [| sl rest] eqn:Hl; [discriminate |].
  bind_inv H. bind_inv H. bind_inv H. injection H as <-. simpl. auto.
Qed.

Lemma parse_inv (p : BBVAParser) (st : Statement) :
  parse p = inr st ->
  exists st0, parse_statement p = inr st0
    /\ lines st = lines st0 /\ stmt_currency st = stmt_currency st0
    /\ start_balance st = Some (balance_or_zero (start_balance st0)).
Proof.
  unfold parse. intros H. bind_inv H. exists a. split; [exact Ha |].
  apply recalculate_balance_keeps in H. tauto.
Qed.

Lemma parse_lines_Forall2 (loc : string) (d : column_map)
  (acct : option BankAccount) :
  forall (records : list (list Cell)) (ls : list StatementLine),
    Forall (fun line => line <> []) records ->
    parse_lines loc d acct records = inr ls ->
    Forall2 (fun line sl => parse_record loc d acct line = inr sl) records ls.
Proof.
  induction records as [| line records IH]; intros ls Hne H; simpl in H.
  - injection H as <-. constructor.
  - inversion Hne as [| ? ? Hline Hrest]; subst.
    destruct line as [| cell line]; [congruence |].
    bind_inv H. bind_inv H. bind_inv H. injection H as <-.
    constructor; [exact Ha | now apply IH].
Qed.

Lemma has_value_nonempty (ws : Worksheet) (start_column r : nat) :
  has_value ws start_column r = true -> line_contents ws start_column r <> [].
Proof.
  unfold has_value. intros H Hnil. rewrite Hnil in H. discriminate.
Qed.

Lemma located_row_positive (fields_values : list string) (ws : Worksheet)
  (r c : nat) :
  locate_header fields_values (ws_iter ws) = Some (r, c) ->
  1 <= r <= max_row ws /\ c < max_column ws.
Proof.
  rewrite locate_header_find.
  destruct (find _ _) as [cell |] eqn:Hf; [| discriminate].
  intros H. injection H as <- <-.
  apply find_some in Hf. destruct Hf as [Hin _].
  apply in_concat in Hin. destruct Hin as (cells & Hcells & Hin).
  unfold ws_iter, cells_by_row in Hcells. apply in_map_iff in Hcells.
  destruct Hcells as (r & <- & Hr). unfold row_cells in Hin.
  apply in_map_iff in Hin. destruct Hin as (c & <- & Hc).
  apply in_seq in Hr. apply in_seq in Hc. simpl. lia.
Qed.

(** The statement lines of a successful [parse] are the records of the
    rows below the header, up to the first row without a truthy cell, in
    row order. *)
Lemma parse_lines_of_rows (p : BBVAParser) (st : Statement) (r c n : nat) :
  parse p = inr st ->
  locate_header (map (fun f => lower (snd f)) (fields p)) (ws_iter (_ws p))
    = Some (r, c) ->
  (forall i, i < n -> has_value (_ws p) c (r + 1 + i) = true) ->
  has_value (_ws p) c (r + 1 + n) = false ->
  Forall2
    (fun line sl =>
       parse_record (locale p) (column_map_of p r c) (bank_account_of p) line
       = inr sl)
    (map (line_contents (_ws p) c) (seq (r + 1) n)) (lines st).
Proof.
  intros Hparse Hloc Hrows Hend.
  apply parse_inv in Hparse. destruct Hparse as (st0 & Hst0 & Hlines & _ & _).
  apply parse_statement_inv in Hst0.
  destruct Hst0 as (r' & c' & records & Hloc' & _ & _ & _ & _ & Hsplit & Hpl & _).
  rewrite Hloc in Hloc'. injection Hloc' as <- <-.
  rewrite (split_records_spec (_ws p) (r + 1) c n) in Hsplit by (auto; lia).
  injection Hsplit as <-. rewrite Hlines.
  apply parse_lines_Forall2; [| exact Hpl].
  apply Forall_forall. intros line Hin. apply in_map_iff in Hin.
  destruct Hin as (i & <- & Hi). apply in_seq in Hi.
  apply has_value_nonempty.
  replace i with (r + 1 + (i - (r + 1))) by lia. apply Hrows. lia.
Qed.

End ParseFacts.

(** ** Row extraction: the end of the table *)

Lemma blank_like_falsy (v : pyval) : blank_like v -> truthy v = false.
Proof.
  intros [-> | [-> | [-> | [s ->]]]]; reflexivity.
Qed.

Lemma blank_row_has_no_value (ws : Worksheet) (start_column k : nat) :
  (forall cell, In cell (line_contents ws start_column k) ->
                blank_like (value cell)) ->
  has_value ws start_column k = false.
Proof.
  intros H. unfold has_value.
  destruct (existsb _ _) eqn:He; [| reflexivity].
  apply existsb_exists in He. destruct He as (cell & Hin & Ht).
  rewrite (blank_like_falsy _ (H _ Hin)) in Ht. discriminate.
Qed.

(** C10: a row in which every cell from the start column onward is empty,
    the empty text or the number zero ends the extraction: the records
    are the rows above the first row without a truthy cell, all of them
    strictly above that row, and the statement lines of a successful
    parse are made from those rows only. *)
Theorem zero_row_ends_extraction :
  forall (RT : Runtime) (p : BBVAParser) (r c k : nat),
    locate_header (map (fun f => lower (snd f)) (fields p)) (ws_iter (_ws p))
      = Some (r, c) ->
    r < k ->
    (forall cell, In cell (line_contents (_ws p) c k) ->
                  blank_like (value cell)) ->
    exists n,
      r + n < k
      /\ (forall i, i < n -> has_value (_ws p) c (r + 1 + i) = true)
      /\ has_value (_ws p) c (r + 1 + n) = false
      /\ split_records (_ws p) (r + 1) c
         = Some (map (line_contents (_ws p) c) (seq (r + 1) n))
      /\ (forall st, parse p = inr st ->
            Forall2
              (fun line sl =>
                 parse_record (locale p) (column_map_of p r c)
                   (bank_account_of p) line = inr sl)
              (map (line_contents (_ws p) c) (seq (r + 1) n)) (lines st)).
Proof.
  intros RT p r c k Hloc Hk Hblank.
  apply blank_row_has_no_value in Hblank.
  destruct (first_row_without_value (_ws p) c (k - (r + 1)) (r + 1))
    as (n & Hn & Hrows & Hstop).
  { replace (r + 1 + (k - (r + 1))) with k by lia. exact Hblank. }
  exists n. split; [lia |]. split; [exact Hrows |]. split; [exact Hstop |].
  split.
  - apply split_records_spec; auto. lia.
  - intros st Hparse. now apply (parse_lines_of_rows p st r c n).
Qed.

(** C7, as the code has it: the records are, in order, the rows below the
    header up to the first row that has no truthy cell from the start
    column onward, and a successful parse makes one statement line of
    each of them. *)
Theorem rows_until_first_row_without_value :
  forall (RT : Runtime) (p : BBVAParser) (st : Statement) (r c n : nat),
    parse p = inr st ->
    locate_header (map (fun f => lower (snd f)) (fields p)) (ws_iter (_ws p))
      = Some (r, c) ->
    (forall i, i < n -> has_value (_ws p) c (r + 1 + i) = true) ->
    has_value (_ws p) c (r + 1 + n) = false ->
    split_records (_ws p) (r + 1) c
      = Some (map (line_contents (_ws p) c) (seq (r + 1) n))
    /\ Forall2
         (fun line sl =>
            parse_record (locale p) (column_map_of p r c)
              (bank_account_of p) line = inr sl)
         (map (line_contents (_ws p) c) (seq (r + 1) n)) (lines st)
    /\ List.length (lines st) = n.
Proof.
  intros RT p st r c n Hparse Hloc Hrows Hend.
  pose proof (parse_lines_of_rows p st r c n Hparse Hloc Hrows Hend) as HF.
  split; [| split].
  - apply split_records_spec; auto. lia.
  - exact HF.
  - apply Forall2_length in HF. rewrite <- HF.
    now rewrite length_map, length_seq.
Qed.

Lemma rows_until_first_row_without_value_witness :
  exists st,
    parse (RT := Reference.runtime) blank_row_doc = inr st
    /\ List.length (lines st) = 2.
Proof.
  eexists. split.
  - vm_compute. reflexivity.
  - apply (rows_until_first_row_without_value Reference.runtime
             blank_row_doc _ 1 0 2).
    + vm_compute. reflexivity.
    + reflexivity.
    + intros [| [| i]] Hi; [reflexivity | reflexivity | lia].
    + reflexivity.
Defined.

(** C7 as the specification words it, with "empty" read as "holding no
    value", fails: a row whose only populated cell is the number zero is
    not empty, yet extraction stops at it. *)
Lemma rows_until_first_empty_row_fails :
  ~ (forall (ws : Worksheet) (start_row start_column n : nat),
       1 <= start_row ->
       (forall i, i < n -> is_empty_row ws start_column (start_row + i) = false) ->
       is_empty_row ws start_column (start_row + n) = true ->
       split_records ws start_row start_column
       = Some (map (line_contents ws start_column) (seq start_row n))).
Proof.
  intros claim.
  specialize (claim (_ws zero_row_doc) 2 0 3).
  assert (H : split_records (_ws zero_row_doc) 2 0
              = Some (map (line_contents (_ws zero_row_doc) 0) (seq 2 3))).
  { apply claim.
    - lia.
    - intros [| [| [| i]]] Hi; [reflexivity | reflexivity | reflexivity | lia].
    - reflexivity. }
  vm_compute in H. discriminate H.
Qed.

Lemma zero_row_ends_extraction_witness :
  exists n,
    1 + n < 3
    /\ (forall i, i < n -> has_value (_ws zero_row_doc) 0 (1 + 1 + i) = true)
    /\ has_value (_ws zero_row_doc) 0 (1 + 1 + n) = false
    /\ split_records (_ws zero_row_doc) (1 + 1) 0
       = Some (map (line_contents (_ws zero_row_doc) 0) (seq (1 + 1) n))
    /\ (forall st, parse (RT := Reference.runtime) zero_row_doc = inr st ->
          Forall2
            (fun line sl =>
               parse_record (RT := Reference.runtime) (locale zero_row_doc)
                 (column_map_of zero_row_doc 1 0)
                 (bank_account_of zero_row_doc) line = inr sl)
            (map (line_contents (_ws zero_row_doc) 0) (seq (1 + 1) n))
            (lines st)).
Proof.
  apply (zero_row_ends_extraction Reference.runtime zero_row_doc 1 0 3).
  - reflexivity.
  - lia.
  - intros cell Hin. simpl in Hin.
    repeat (destruct Hin as [<- | Hin]; [simpl; unfold blank_like; auto |]).
    destruct Hin.
Defined.

(** ** Balance extraction *)

Section BalanceFacts.

Context {RT : Runtime}.

Variables (d : column_map) (start_column : nat).

(** What one pass over the cells of a row leaves in [start_balance]. *)
Lemma scan_balance_cells_result (row : list Cell) :
  forall (remaining : list Cell) (sb r : option Decimal),
    scan_balance_cells d start_column row remaining sb = inr r ->
    (remaining = [] /\ r = sb)
    \/ (remaining <> []
        /\ exists b,
             get_field_record d (skipn start_column row) BALANCE = inr b
             /\ if truthy b then parse_value_amount b = inr r else r = sb).
Proof.
  induction remaining as [| cell rest IH]; intros sb r H; simpl in H.
  - left. injection H as <-. auto.
  - right. split; [discriminate |].
    bind_inv H. bind_inv H. rename a into b, a0 into sb'.
    exists b. split; [exact Ha |].
    destruct (IH sb' r H) as [[-> ->] | (_ & b' & Hb' & Hr)].
    + destruct (truthy b); [exact Ha0 | now injection Ha0 as <-].
    + rewrite Ha in Hb'. injection Hb' as <-.
      destruct (truthy b); [exact Hr |].
      injection Ha0 as <-. exact Hr.
Qed.

(** Each row with a truthy balance overwrites [start_balance]: the value
    left after the loop is that of the last such row. *)
Lemma scan_balance_last :
  forall (rows : list (list Cell)) (sb r : option Decimal),
    Forall (fun row => row <> []) rows ->
    scan_balance d start_column rows sb = inr r ->
    exists vals,
      Forall2
        (fun row v =>
           get_field_record d (skipn start_column row) BALANCE = inr v)
        rows vals
      /\ match find truthy (rev vals) with
         | Some b => parse_value_amount b = inr r
         | None => r = sb
         end.
Proof.
  induction rows as [| row rows IH]; intros sb r Hne H; simpl in H.
  - exists []. split; [constructor |]. simpl. now injection H as <-.
  - inversion Hne as [| ? ? Hrow Hrows]; subst.
    bind_inv H. rename a into sb1.
    destruct (scan_balance_cells_result row row sb sb1 Ha)
      as [[-> _] | (_ & b & Hb & Hsb1)]; [congruence |].
    destruct (IH sb1 r Hrows H) as (vals & HF & Hlast).
    exists (b :: vals). split; [constructor; assumption |].
    simpl. rewrite find_app_first.
    destruct (find truthy (rev vals)) as [b' |]; [exact Hlast |].
    subst r. simpl. destruct (truthy b); assumption.
Qed.

End BalanceFacts.

Lemma nth_error_row_cells (ws : Worksheet) (min_col max_col r c k : nat)
  (cell : Cell) :
  nth_error (skipn c (row_cells ws min_col max_col r)) k = Some cell ->
  cell = cell_at ws r (min_col + (c + k)).
Proof.
  unfold row_cells. rewrite nth_error_skipn, nth_error_map, nth_error_seq.
  destruct (c + k <? max_col + 1 - min_col)%nat; simpl; [| discriminate].
  intros H. now injection H as <-.
Qed.

Lemma Forall2_map_eq {A B C} (R : B -> C -> Prop) (f : A -> B) (g : A -> C) :
  forall (l : list A) (vals : list C),
    (forall a v, In a l -> R (f a) v -> v = g a) ->
    Forall2 R (map f l) vals -> vals = map g l.
Proof.
  induction l as [| a l IH]; intros vals Hg HF; simpl in HF;
    inversion HF as [| ? v ? vals' Hhd Htl]; subst.
  - reflexivity.
  - simpl. f_equal.
    + apply Hg; [now left | exact Hhd].
    + apply IH; [| exact Htl]. intros a' v' Hin. apply Hg. now right.
Qed.

(** C1, as the code has it, for a header that starts in the first or the
    second column of the sheet: the balance loop goes through every row
    below the header, down to the last row of the sheet, and each row
    whose BALANCE cell is truthy overwrites the starting balance, so the
    loop leaves the balance of the last such row; with no such row, or
    with no BALANCE column, it leaves the starting balance unset.  The
    balance recalculation keeps what the loop left, with zero in the place
    of an unset or zero balance. *)
Theorem start_balance_is_last_balance :
  forall (RT : Runtime) (p : BBVAParser) (st : Statement) (r c : nat),
    parse p = inr st ->
    locate_header (map (fun f => lower (snd f)) (fields p)) (ws_iter (_ws p))
      = Some (r, c) ->
    c <= 1 ->
    exists captured : option Decimal,
      match dict_lookup (column_map_of p r c) BALANCE with
      | None => captured = None
      | Some k =>
          let balances :=
            map (fun i => value (cell_at (_ws p) i (c + 1 + k)))
                (seq (r + 1) (max_row (_ws p) - r)) in
          match find truthy (rev balances) with
          | Some b => parse_value_amount b = inr captured
          | None => captured = None
          end
      end
      /\ start_balance st = Some (balance_or_zero captured).
Proof.
  intros RT p st r c Hparse Hloc Hc.
  apply parse_inv in Hparse.
  destruct Hparse as (st0 & Hparse & _ & _ & Hfinal).
  exists (start_balance st0). split; [| exact Hfinal].
  apply parse_statement_inv in Hparse.
  destruct Hparse as (r' & c' & records & Hloc' & _ & _ & _ & Hscan & _).
  rewrite Hloc in Hloc'. injection Hloc' as <- <-.
  apply located_row_positive in Hloc. destruct Hloc as [Hr Hcol].
  unfold iter_rows, cells_by_row in Hscan.
  replace (if (r + 1 =? 0)%nat then 1 else r + 1) with (r + 1) in Hscan
    by (destruct (Nat.eqb_spec (r + 1) 0); lia).
  replace (max_row (_ws p) + 1 - (r + 1)) with (max_row (_ws p) - r) in Hscan
    by lia.
  set (min_col := if (c =? 0)%nat then 1 else c) in Hscan.
  assert (Hmin : min_col + c = c + 1).
  { unfold min_col. destruct (Nat.eqb_spec c 0); lia. }
  apply scan_balance_last in Hscan.
  - destruct Hscan as (vals & HF & Hlast).
    unfold get_field_record in HF.
    destruct (dict_lookup (column_map_of p r c) BALANCE) as [k |].
    + apply (Forall2_map_eq _ _
               (fun i => value (cell_at (_ws p) i (c + 1 + k)))) in HF.
      * subst vals. exact Hlast.
      * intros i v _ Hv.
        destruct (nth_error _ k) as [cell |] eqn:Hnth; [| discriminate].
        injection Hv as <-. apply nth_error_row_cells in Hnth. subst cell.
        now rewrite Nat.add_assoc, Hmin.
    + apply (Forall2_map_eq _ _ (fun _ => VNone)) in HF.
      * subst vals.
        destruct (find truthy _) as [b |] eqn:Hfind; [| exact Hlast].
        apply find_some in Hfind. destruct Hfind as [Hin Ht].
        apply in_rev, in_map_iff in Hin. destruct Hin as (i & <- & _).
        discriminate.
      * intros i v _ Hv. now injection Hv as <-.
  - apply Forall_forall. intros cells Hin. apply in_map_iff in Hin.
    destruct Hin as (i & <- & _). unfold row_cells.
    destruct (max_column (_ws p) + 1 - min_col) as [| n] eqn:Hn.
    + unfold min_col in Hn. destruct (Nat.eqb_spec c 0); lia.
    + discriminate.
Qed.

Lemma start_balance_is_last_balance_witness :
  exists st,
    parse (RT := Reference.runtime) two_balance_doc = inr st
    /\ exists captured,
         parse_value_amount (RT := Reference.runtime) (VInt 900)
           = inr captured
         /\ start_balance st = Some (balance_or_zero captured).
Proof.
  eexists. split.
  - vm_compute. reflexivity.
  - apply (start_balance_is_last_balance Reference.runtime two_balance_doc
             _ 1 0).
    + vm_compute. reflexivity.
    + reflexivity.
    + lia.
Defined.

(** C1 as stated fails: the first data row carrying a balance holds 1000,
    a later row holds 900, and the starting balance of the statement is
    900. *)
Lemma start_balance_not_from_first_row :
  exists st,
    parse (RT := Reference.runtime) two_balance_doc = inr st
    /\ get_field_record (column_map_of two_balance_doc 1 0)
         (line_contents (_ws two_balance_doc) 0 2) BALANCE = inr (VInt 1000)
    /\ get_field_record (column_map_of two_balance_doc 1 0)
         (line_contents (_ws two_balance_doc) 0 3) BALANCE = inr (VInt 900)
    /\ start_balance st = Some (Dec 900 0)
    /\ start_balance st <> Some (Dec 1000 0).
Proof.
  eexists. split; [vm_compute; reflexivity |].
  split; [reflexivity |]. split; [reflexivity |].
  split; [reflexivity | discriminate].
Qed.

(** ** Currency unification *)

Lemma unify_currency_map (lines : list StatementLine) :
  forall (i : nat) (cur : option currency_ref),
    unify_currency i cur lines = unify_list i cur (map currency lines).
Proof.
  induction lines as [| sl lines IH]; intros i cur; simpl.
  - reflexivity.
  - unfold line_currency. destruct cur as [c |]; [| apply IH].
    destruct (currency_matches c _); [apply IH | reflexivity].
Qed.

(** Lines without a currency at the head of the statement leave the
    statement currency unset. *)
Lemma unify_list_leading_none (cs : list (option Currency)) :
  forall (n i : nat),
    unify_list i None (repeat None n ++ cs) = unify_list (i + n) None cs.
Proof.
  induction n as [| n IH]; intros i; simpl.
  - now rewrite Nat.add_0_r.
  - rewrite IH. f_equal. lia.
Qed.

(** Once the statement currency is the object of an earlier line, the
    comparison with the object of any later line fails: the loop clears
    the currency at the next line, whatever that line holds. *)
Lemma unify_list_earlier_object (j i : nat) (c : Currency)
  (cs : list (option Currency)) :
  j < i ->
  unify_list i (Some (j, c)) cs
  = match cs with
    | [] => Some (j, c)
    | _ :: _ => None
    end.
Proof.
  intros Hlt. destruct cs as [| x cs]; simpl; [reflexivity |].
  destruct x as [c' |]; simpl; [| reflexivity].
  destruct (Nat.eqb_spec j i); [lia | reflexivity].
Qed.

(** The first line with a currency sets the statement currency, which
    stays only when no line follows. *)
Lemma unify_list_first_currency (i : nat) (c : Currency)
  (cs : list (option Currency)) :
  unify_list i None (Some c :: cs)
  = match cs with
    | [] => Some (i, c)
    | _ :: _ => None
    end.
Proof.
  change (unify_list i None (Some c :: cs))
    with (unify_list (S i) (Some (i, c)) cs).
  apply unify_list_earlier_object. lia.
Qed.

Lemma parse_currency (RT : Runtime) (p : BBVAParser) (st : Statement) :
  parse p = inr st ->
  stmt_currency st
  = option_map snd (unify_list 0 None (map currency (lines st))).
Proof.
  intros Hparse. apply parse_inv in Hparse.
  destruct Hparse as (st0 & Hst0 & Hlines & Hcur & _).
  apply parse_statement_inv in Hst0.
  destruct Hst0 as (r & c & records & _ & _ & _ & _ & _ & _ & _ & Hu).
  rewrite Hcur, Hu, Hlines. unfold statement_currency.
  now rewrite unify_currency_map.
Qed.

(** C3 (evaluation of the code): [statement.currency == sl.currency]
    compares two [Currency] objects, and each transaction has an object
    of its own, so the comparison fails between any two transactions.
    Transactions without a currency at the head of the statement are
    passed over; the statement currency is set only when the one
    transaction after them that has a currency is the last transaction,
    and is unset as soon as a further transaction follows.  So neither
    [EUR, EUR, EUR] nor [EUR, USD] gives a statement currency. *)
Theorem statement_currency_unification :
  forall (RT : Runtime) (p : BBVAParser) (st : Statement),
    parse p = inr st ->
    let cs := map currency (lines st) in
    (forall n, cs = repeat None n -> stmt_currency st = None)
    /\ (forall n c,
          cs = repeat None n ++ [Some c] -> stmt_currency st = Some c)
    /\ (forall n c x rest,
          cs = repeat None n ++ Some c :: x :: rest ->
          stmt_currency st = None)
    /\ (cs = [Some EUR; Some EUR; Some EUR] -> stmt_currency st = None)
    /\ (cs = [Some EUR; Some USD] -> stmt_currency st = None).
Proof.
  intros RT p st Hparse cs.
  pose proof (parse_currency RT p st Hparse) as Hcur. fold cs in Hcur.
  assert (Hmore : forall n c x rest,
             cs = repeat None n ++ Some c :: x :: rest ->
             stmt_currency st = None).
  { intros n c x rest Hcs.
    now rewrite Hcur, Hcs, unify_list_leading_none,
      unify_list_first_currency. }
  split; [| split; [| split; [exact Hmore | split]]].
  - intros n Hcs. rewrite Hcur, Hcs.
    rewrite <- (app_nil_r (repeat None n)).
    now rewrite unify_list_leading_none.
  - intros n c Hcs.
    now rewrite Hcur, Hcs, unify_list_leading_none,
      unify_list_first_currency.
  - intros Hcs. exact (Hmore 0 EUR (Some EUR) [Some EUR] Hcs).
  - intros Hcs. exact (Hmore 0 EUR (Some USD) [] Hcs).
Qed.

Lemma statement_currency_unification_witness :
  (exists st,
     parse (RT := Reference.runtime) eur_doc = inr st
     /\ map currency (lines st) = [Some EUR; Some EUR; Some EUR]
     /\ stmt_currency st = None)
  /\ (exists st,
        parse (RT := Reference.runtime) eur_usd_doc = inr st
        /\ stmt_currency st = None).
Proof.
  split.
  - eexists. split; [vm_compute; reflexivity |].
    split; [reflexivity |].
    apply (proj1 (proj2 (proj2 (proj2
             (statement_currency_unification Reference.runtime eur_doc _
                ltac:(vm_compute; reflexivity)))))).
    reflexivity.
  - eexists. split; [vm_compute; reflexivity |].
    apply (proj2 (proj2 (proj2 (proj2
             (statement_currency_unification Reference.runtime eur_usd_doc _
                ltac:(vm_compute; reflexivity)))))).
    reflexivity.
Defined.

(** A statement whose transactions carry no currency and then EUR, which
    do not agree, gets the statement currency EUR. *)
Lemma statement_currency_set_on_disagreement :
  exists st,
    parse (RT := Reference.runtime) none_eur_doc = inr st
    /\ map currency (lines st) = [None; Some EUR]
    /\ stmt_currency st = Some EUR.
Proof.
  eexists. split; [vm_compute; reflexivity |].
  split; reflexivity.
Qed.

(** ** Record construction *)

Section RecordFacts.

Context {RT : Runtime}.

Lemma match_prefixes_source (concept : pyval) :
  forall (tbl : list (string * string)) (t : string) (src : pyval),
    match_prefixes tbl concept = inr (t, src) ->
    (starts_with_any tbl concept = true /\ src = concept)
    \/ (starts_with_any tbl concept = false /\ src = VNone /\ t = "OTHER").
Proof.
  induction tbl as [| [p t'] tbl IH]; intros t src H; simpl in H.
  - right. injection H as <- <-. auto.
  - bind_inv H. rename a into b.
    destruct concept as [| s | | | |]; simpl in Ha; try discriminate.
    injection Ha as <-. simpl.
    destruct (prefix p s).
    + left. injection H as <- <-. auto.
    + simpl. apply IH. exact H.
Qed.

Lemma get_transaction_type_source (loc : string) (concept movement : pyval)
  (t : string) (src : pyval) :
  get_transaction_type loc concept movement = inr (t, src) ->
  py_str src = type_source_text loc concept movement
  /\ (exact_match loc concept = false -> exact_match loc movement = false ->
      prefix_match loc concept = false -> t = "OTHER" /\ src = VNone).
Proof.
  unfold get_transaction_type, type_source_text, prefix_match.
  fold (exact_match loc concept). fold (exact_match loc movement).
  destruct (exact_match loc concept).
  - intros H. injection H as <- <-. split; [reflexivity | discriminate].
  - destruct (exact_match loc movement).
    + intros H. injection H as <- <-. split; [reflexivity | discriminate].
    + intros H. apply match_prefixes_source in H.
      destruct H as [[-> ->] | (-> & -> & ->)].
      * split; [reflexivity | discriminate].
      * split; [reflexivity | auto].
Qed.

Lemma parse_record_inv (loc : string) (d : column_map)
  (acct : option BankAccount) (cells : list Cell) (sl : StatementLine) :
  parse_record loc d acct cells = inr sl ->
  exists date_cell amount_cell concept movement description tag src cur,
    get_field_record d cells DATE = inr date_cell
    /\ parse_value_date date_cell = inr (date sl)
    /\ get_field_record d cells AMOUNT = inr amount_cell
    /\ parse_value_amount amount_cell = inr (amount sl)
    /\ get_field_record d cells CONCEPT = inr concept
    /\ get_field_record d cells MOVEMENT = inr movement
    /\ get_field_record d cells DESCRIPTION = inr description
    /\ get_transaction_type loc concept movement = inr (tag, src)
    /\ get_field_record d cells CURRENCY = inr cur
    /\ trntype sl = tag
    /\ memo sl = format_memo src movement description
    /\ currency sl = (if truthy cur then Some (mk_Currency cur) else None)
    /\ bank_account_to sl = acct.
Proof.
  unfold parse_record. intros H.
  bind_inv H. rename a into date_cell, Ha into Hdate_cell.
  bind_inv H. rename a into date_v, Ha into Hdate.
  bind_inv H. rename a into amount_cell, Ha into Hamount_cell.
  bind_inv H. rename a into amount_v, Ha into Hamount.
  bind_inv H. rename a into concept, Ha into Hconcept.
  bind_inv H. rename a into movement, Ha into Hmovement.
  bind_inv H. rename a into description, Ha into Hdescription.
  bind_inv H. destruct a as [tag src]. rename Ha into Htype.
  bind_inv H. rename a into cur, Ha into Hcur.
  bind_inv H. injection Ha as <-.
  bind_inv H. bind_inv H. injection H as <-. simpl.
  exists date_cell, amount_cell, concept, movement, description, tag, src, cur.
  repeat split; assumption || reflexivity.
Qed.

End RecordFacts.

(** C4, as the code has it: the memo of a constructed transaction is
    "[(<type-source>)-(<movement>)] <description>", each part formatted
    as [str] does; the type source is the concept or the movement that
    was found in the exact-type table, the concept after a prefix match,
    and in the default case, where the type is "OTHER", the classifier
    gives no source and the memo shows the text "None" in its place. *)
Theorem memo_of_record :
  forall (RT : Runtime) (loc : string) (d : column_map)
         (acct : option BankAccount) (cells : list Cell) (sl : StatementLine),
    parse_record loc d acct cells = inr sl ->
    exists concept movement description,
      get_field_record d cells CONCEPT = inr concept
      /\ get_field_record d cells MOVEMENT = inr movement
      /\ get_field_record d cells DESCRIPTION = inr description
      /\ memo sl = ("[(" ++ type_source_text loc concept movement ++ ")-("
                         ++ py_str movement ++ ")] " ++ py_str description)%string
      /\ (exact_match loc concept = false ->
          exact_match loc movement = false ->
          prefix_match loc concept = false ->
          trntype sl = "OTHER"
          /\ memo sl = ("[(None)-(" ++ py_str movement ++ ")] "
                             ++ py_str description)%string).
Proof.
  intros RT loc d acct cells sl H.
  apply parse_record_inv in H.
  destruct H as (date_cell & amount_cell & concept & movement & description
                 & tag & src & cur & _ & _ & _ & _ & Hc & Hm & Hd & Htype
                 & _ & Htag & Hmemo & _).
  exists concept, movement, description.
  apply get_transaction_type_source in Htype. destruct Htype as [Hsrc Hother].
  split; [exact Hc | split; [exact Hm | split; [exact Hd | split]]].
  - rewrite Hmemo. unfold format_memo. now rewrite Hsrc.
  - intros H1 H2 H3. destruct (Hother H1 H2 H3) as [-> ->].
    split; [exact Htag | rewrite Hmemo; reflexivity].
Qed.

Lemma memo_of_record_witness :
  exists sl,
    parse_record (RT := Reference.runtime) "es"
      (column_map_of blank_row_doc 1 0) (bank_account_of blank_row_doc)
      (line_contents (_ws blank_row_doc) 0 2) = inr sl
    /\ memo sl = "[(Pago con tarjeta)-(None)] Supermercado".
Proof.
  eexists. split.
  - vm_compute. reflexivity.
  - destruct (memo_of_record Reference.runtime "es"
                (column_map_of blank_row_doc 1 0)
                (bank_account_of blank_row_doc)
                (line_contents (_ws blank_row_doc) 0 2) _
                ltac:(vm_compute; reflexivity))
      as (concept & movement & description & Hc & Hm & Hd & Hmemo & _).
    vm_compute in Hc, Hm, Hd.
    injection Hc as <-. injection Hm as <-. injection Hd as <-.
    exact Hmemo.
Defined.

(** C4 as stated fails in the default case: the concept of the row is
    "Compra", nothing matches, and the memo starts with the text of
    [None], not with the concept. *)
Lemma memo_of_unclassified_row :
  exists st sl,
    parse (RT := Reference.runtime) other_doc = inr st
    /\ lines st = [sl]
    /\ get_field_record (column_map_of other_doc 1 0)
         (line_contents (_ws other_doc) 0 2) CONCEPT = inr (VStr "Compra")
    /\ trntype sl = "OTHER"
    /\ memo sl = "[(None)-(None)] Supermercado"
    /\ memo sl <> "[(Compra)-(None)] Supermercado".
Proof.
  eexists. eexists. split; [vm_compute; reflexivity |].
  split; [reflexivity |]. split; [reflexivity |]. split; [reflexivity |].
  split; [reflexivity | discriminate].
Qed.

(** ** Amounts *)



(** The [float] that stands for -45.30 is the binary64 number nearest to
    it: its distance to -45.30 is below half a unit in the last place. *)
Lemma double_of_minus_45_30 :
  double_of_ratio (-4530) 100 = S754_finite true 6375408222496358 (-47)
  /\ valid_binary 53 1024 (double_of_ratio (-4530) 100) = true
  /\ (2 * Z.abs (100 * 6375408222496358 - 4530 * 2 ^ 47) < 100)%Z.
Proof.
  split; [vm_compute; reflexivity |].
  split; [vm_compute; reflexivity |].
  vm_compute. reflexivity.
Qed.




(** * Further properties *)

(** ** Construction of the parser *)

Lemma unsupported_locale_tables (locale : string) :
  locale <> "es" -> locale <> "it" ->
  has_locale FIELD_MAPPINGS locale = false.
Proof.
  intros Hes Hit. unfold has_locale, FIELD_MAPPINGS. cbn [assoc_get].
  destruct (String.eqb_spec "es" locale) as [E | _]; [congruence |].
  destruct (String.eqb_spec "it" locale) as [E | _]; [congruence |].
  reflexivity.
Qed.

(** X1: the constructor accepts exactly the locales "es" and "it", the
    keys that the three tables share.  For them the parser gets the field
    table of the locale itself, so the Spanish fallback of
    [create_fields_enum] is never taken; any other locale fails the first
    assertion. *)
Theorem BBVAParser_init_locales :
  forall (ws : Worksheet) (locale account_id : string),
    (locale = "es" \/ locale = "it" ->
     BBVAParser_init ws locale account_id
     = inr (mk_BBVAParser locale (table_of FIELD_MAPPINGS locale)
              account_id ws)
     /\ map fst (table_of FIELD_MAPPINGS locale)
        = [VALUE_DATE; DATE; CONCEPT; MOVEMENT; AMOUNT; CURRENCY; BALANCE;
           DESCRIPTION])
    /\ (locale <> "es" -> locale <> "it" ->
        BBVAParser_init ws locale account_id = inl AssertionError).
Proof.
  intros ws locale account_id. split.
  - intros [-> | ->]; split; reflexivity.
  - intros Hes Hit. unfold BBVAParser_init.
    now rewrite (unsupported_locale_tables locale Hes Hit).
Qed.

Lemma BBVAParser_init_locales_witness :
  BBVAParser_init (mk_Worksheet []) "it" "conto"
  = inr (mk_BBVAParser "it" (table_of FIELD_MAPPINGS "it") "conto"
           (mk_Worksheet []))
  /\ BBVAParser_init (mk_Worksheet []) "fr" "compte" = inl AssertionError.
Proof.
  split.
  - apply (proj1 (BBVAParser_init_locales (mk_Worksheet []) "it" "conto")).
    right. reflexivity.
  - apply (proj2 (BBVAParser_init_locales (mk_Worksheet []) "fr" "compte"));
      discriminate.
Defined.

Lemma BBVAParser_init_inv (ws : Worksheet) (locale account_id : string)
  (p : BBVAParser) :
  BBVAParser_init ws locale account_id = inr p ->
  (locale = "es" \/ locale = "it")
  /\ p = mk_BBVAParser locale (table_of FIELD_MAPPINGS locale) account_id ws.
Proof.
  intros H.
  destruct (String.eqb_spec locale "es") as [-> | Hes].
  { split; [now left |]. simpl in H. now injection H as <-. }
  destruct (String.eqb_spec locale "it") as [-> | Hit].
  { split; [now right |]. simpl in H. now injection H as <-. }
  unfold BBVAParser_init in H.
  rewrite (unsupported_locale_tables locale Hes Hit) in H. discriminate.
Qed.

(** ** The account of a statement *)

Section AccountFacts.

Context {RT : Runtime}.

Lemma recalculate_balance_account (st0 st : Statement) :
  recalculate_balance st0 = inr st -> account_id st = account_id st0.
Proof.
  unfold recalculate_balance. intros H. bind_inv H.
  destruct (lines st0) as [| sl rest]; [discriminate |].
  bind_inv H. bind_inv H. bind_inv H. now injection H as <-.
Qed.

(** Every statement line comes from the record of one of the rows. *)
Lemma parse_lines_In (loc : string) (d : column_map)
  (acct : option BankAccount) :
  forall (records : list (list Cell)) (ls : list StatementLine),
    parse_lines loc d acct records = inr ls ->
    forall sl, In sl ls ->
      exists line, In line records /\ parse_record loc d acct line = inr sl.
Proof.
  induction records as [| line records IH]; intros ls H sl Hin; simpl in H.
  - injection H as <-. destruct Hin.
  - destruct line as [| cell line].
    + destruct (IH ls H sl Hin) as (l & Hl & Hp). exists l. split; auto.
      now right.
    + bind_inv H. bind_inv H. bind_inv H. injection H as <-.
      destruct Hin as [<- | Hin].
      * exists (cell :: line). split; [now left | exact Ha].
      * destruct (IH _ Ha1 sl Hin) as (l & Hl & Hp). exists l. split; auto.
        now right.
Qed.

Lemma parse_account (p : BBVAParser) (st : Statement) :
  parse p = inr st ->
  account_id st = parser_account_id p
  /\ forall sl, In sl (lines st) -> bank_account_to sl = bank_account_of p.
Proof.
  unfold parse. intros H. bind_inv H. rename a into st0.
  pose proof (recalculate_balance_account _ _ H) as Hacc.
  apply recalculate_balance_keeps in H. destruct H as (Hlines & _ & _).
  assert (Hid : account_id st0 = parser_account_id p).
  { unfold parse_statement in Ha.
    destruct (locate_header _ _) as [[r c] |]; [| discriminate].
    destruct (negb _); [discriminate |].
    destruct (negb _); [discriminate |].
    destruct (negb _); [discriminate |].
    bind_inv Ha. destruct (split_records _ _ _); [| discriminate].
    bind_inv Ha. now injection Ha as <-. }
  split; [congruence |].
  intros sl Hin. rewrite Hlines in Hin.
  apply parse_statement_inv in Ha.
  destruct Ha as (r & c & records & _ & _ & _ & _ & _ & _ & Hpl & _).
  destruct (parse_lines_In _ _ _ _ _ Hpl sl Hin) as (line & _ & Hrec).
  apply parse_record_inv in Hrec.
  destruct Hrec as (? & ? & ? & ? & ? & ? & ? & ? & _ & _ & _ & _ & _ & _
                    & _ & _ & _ & _ & _ & _ & Hacct).
  exact Hacct.
Qed.

End AccountFacts.

(** X2: the plugin builds the parser with the language "es" and the
    account "bbva-personal" unless the settings name others; the language
    has to be "es" or "it".  A statement parsed with it carries that
    account, and every transaction points to the bank account with bank
    id MICSITM1XXX and that account id. *)
Theorem get_parser_settings :
  forall (RT : Runtime) (settings : list (string * string)) (ws : Worksheet)
         (p : BBVAParser),
    get_parser settings ws = inr p ->
    let language := settings_get settings "language" "es" in
    let account := settings_get settings "default_account" "bbva-personal" in
    (language = "es" \/ language = "it")
    /\ p = mk_BBVAParser language (table_of FIELD_MAPPINGS language) account ws
    /\ forall st, parse p = inr st ->
         account_id st = account
         /\ forall sl, In sl (lines st) ->
              bank_account_to sl
              = Some (mk_BankAccount "MICSITM1XXX" account "CHECKING").
Proof.
  intros RT settings ws p H language account.
  apply BBVAParser_init_inv in H. destruct H as [Hloc ->].
  split; [exact Hloc |]. split; [reflexivity |].
  intros st Hparse. apply parse_account in Hparse. exact Hparse.
Qed.

Lemma get_parser_settings_witness :
  exists p st,
    get_parser [("default_account", "cuenta-1")] (_ws blank_row_doc) = inr p
    /\ locale p = "es"
    /\ parse (RT := Reference.runtime) p = inr st
    /\ account_id st = "cuenta-1".
Proof.
  eexists. eexists.
  split; [reflexivity |]. split; [reflexivity |].
  split; [vm_compute; reflexivity |].
  apply (proj2 (proj2 (get_parser_settings Reference.runtime
                         [("default_account", "cuenta-1")]
                         (_ws blank_row_doc) _ eq_refl)) _).
  vm_compute. reflexivity.
Defined.

(** ** The column map *)

Lemma Field_eqb_eq (a b : Field) : Field_eqb a b = true <-> a = b.
Proof.
  destruct a, b; simpl; split; congruence.
Qed.

Lemma Field_eqb_refl (a : Field) : Field_eqb a a = true.
Proof.
  now apply Field_eqb_eq.
Qed.

Lemma Field_eqb_neq (a b : Field) : a <> b -> Field_eqb a b = false.
Proof.
  intros H. destruct (Field_eqb a b) eqn:E; [| reflexivity].
  apply Field_eqb_eq in E. contradiction.
Qed.

Lemma eq_str_iff (v : pyval) (t : string) : eq_str v t = true <-> v = VStr t.
Proof.
  destruct v; simpl; try (split; [discriminate | congruence]).
  rewrite String.eqb_eq. split; congruence.
Qed.

Lemma dict_lookup_set_same (d : column_map) (k : Field) (v : nat) :
  dict_lookup (dict_set d k v) k = Some v.
Proof.
  unfold dict_lookup.
  induction d as [| [k' v'] d IH]; simpl.
  - now rewrite Field_eqb_refl.
  - destruct (Field_eqb k' k) eqn:E; simpl; rewrite E; [reflexivity | exact IH].
Qed.

Lemma dict_lookup_set_other (d : column_map) (k k' : Field) (v : nat) :
  k <> k' -> dict_lookup (dict_set d k v) k' = dict_lookup d k'.
Proof.
  intros Hne. unfold dict_lookup.
  induction d as [| [k0 v0] d IH]; simpl.
  - now rewrite (Field_eqb_neq k k' Hne).
  - destruct (Field_eqb k0 k) eqn:E; simpl.
    + apply Field_eqb_eq in E. subst k0.
      now rewrite (Field_eqb_neq k k' Hne).
    + destruct (Field_eqb k0 k'); [reflexivity |].
      destruct (find _ (dict_set d k v)), (find _ d); congruence.
Qed.

(** The loop of [parse] that fills [_fields_to_row], from any starting
    dictionary: a field gets the offset of the first cell that holds its
    header text, and keeps what it had when there is no such cell. *)
Lemma map_fields_fold (cells : list Cell) (start_column : nat) (f : Field) :
  forall (fs : list (Field * string)) (d0 : column_map),
    NoDup (map fst fs) ->
    dict_lookup
      (fold_left
         (fun d fd =>
            match find (fun cell => eq_str (value cell) (snd fd)) cells with
            | Some cell => dict_set d (fst fd) (col_idx cell - start_column - 1)
            | None => d
            end)
         fs d0) f
    = match find (fun fd => Field_eqb (fst fd) f) fs with
      | Some fd =>
          match find (fun cell => eq_str (value cell) (snd fd)) cells with
          | Some cell => Some (col_idx cell - start_column - 1)
          | None => dict_lookup d0 f
          end
      | None => dict_lookup d0 f
      end.
Proof.
  induction fs as [| [g t] fs IH]; intros d0 Hnd; simpl.
  - reflexivity.
  - inversion Hnd as [| ? ? Hnotin Hnd']; subst.
    rewrite (IH _ Hnd').
    destruct (Field_eqb g f) eqn:E.
    + apply Field_eqb_eq in E. subst g.
      assert (Hnone : find (fun fd => Field_eqb (fst fd) f) fs = None).
      { apply find_none_iff. intros [g' t'] Hin. simpl.
        apply Field_eqb_neq. intros ->. apply Hnotin.
        apply in_map_iff. now exists (f, t'). }
      rewrite Hnone. cbn [fst snd].
      destruct (find (fun cell => eq_str (value cell) t) cells);
        [apply dict_lookup_set_same | reflexivity].
    + assert (Hkeep :
        dict_lookup
          match find (fun cell => eq_str (value cell) t) cells with
          | Some cell => dict_set d0 g (col_idx cell - start_column - 1)
          | None => d0
          end f = dict_lookup d0 f).
      { destruct (find (fun cell => eq_str (value cell) t) cells);
          [| reflexivity].
        apply dict_lookup_set_other. intros ->.
        now rewrite Field_eqb_refl in E. }
      cbn [fst snd]. rewrite Hkeep. reflexivity.
Qed.

Lemma find_field (fs : list (Field * string)) (f : Field) (t : string) :
  NoDup (map fst fs) -> In (f, t) fs ->
  find (fun fd => Field_eqb (fst fd) f) fs = Some (f, t).
Proof.
  induction fs as [| [g u] fs IH]; intros Hnd Hin; simpl.
  - destruct Hin.
  - inversion Hnd as [| ? ? Hnotin Hnd']; subst.
    destruct Hin as [E | Hin].
    + injection E as -> ->. now rewrite Field_eqb_refl.
    + rewrite Field_eqb_neq; [now apply IH |].
      intros ->. apply Hnotin. apply in_map_iff. now exists (f, t).
Qed.

Lemma map_fields_lookup (fs : list (Field * string)) (cells : list Cell)
  (start_column : nat) (f : Field) (t : string) :
  NoDup (map fst fs) -> In (f, t) fs ->
  dict_lookup (map_fields fs cells start_column) f
  = match find (fun cell => eq_str (value cell) t) cells with
    | Some cell => Some (col_idx cell - start_column - 1)
    | None => None
    end.
Proof.
  intros Hnd Hin. unfold map_fields.
  rewrite (map_fields_fold cells start_column f fs [] Hnd).
  now rewrite (find_field fs f t Hnd Hin).
Qed.

(** The cells of a row from the start column onward, by their columns. *)
Lemma line_contents_columns (ws : Worksheet) (c r : nat) :
  line_contents ws c r
  = map (cell_at ws r) (seq (1 + c) (max_column ws - c)).
Proof.
  unfold line_contents, ws_getitem, row_cells.
  rewrite skipn_map, skipn_seq. f_equal. f_equal. lia.
Qed.

Lemma find_map_seq_Some {A} (P : A -> bool) (f : nat -> A) :
  forall (m a : nat) (x : A),
    find P (map f (seq a m)) = Some x ->
    exists k, k < m /\ x = f (a + k) /\ P (f (a + k)) = true
              /\ forall j, j < k -> P (f (a + j)) = false.
Proof.
  induction m as [| m IH]; intros a x H; simpl in H.
  - discriminate.
  - destruct (P (f a)) eqn:E.
    + injection H as <-. exists 0. rewrite Nat.add_0_r.
      split; [lia |]. split; [reflexivity |]. split; [exact E |].
      intros j Hj. lia.
    + destruct (IH (S a) x H) as (k & Hk & Hx & HP & Hbefore).
      exists (S k). replace (a + S k) with (S a + k) by lia.
      split; [lia |]. split; [exact Hx |]. split; [exact HP |].
      intros [| j] Hj.
      * now rewrite Nat.add_0_r.
      * replace (a + S j) with (S a + j) by lia. apply Hbefore. lia.
Qed.

Lemma find_map_seq_None {A} (P : A -> bool) (f : nat -> A) (m a : nat) :
  find P (map f (seq a m)) = None ->
  forall k, k < m -> P (f (a + k)) = false.
Proof.
  intros H k Hk. apply (find_none _ _ H).
  apply in_map_iff. exists (a + k). split; [reflexivity |].
  apply in_seq. lia.
Qed.

(** What the column map holds for a field listed with the header text
    [t], for a header row [r] read from the start column [c]. *)
Lemma column_map_lookup_spec (p : BBVAParser) (r c : nat) (f : Field)
  (t : string) :
  NoDup (map fst (fields p)) -> In (f, t) (fields p) ->
  match dict_lookup (column_map_of p r c) f with
  | Some k =>
      c + 1 + k <= max_column (_ws p)
      /\ value (cell_at (_ws p) r (c + 1 + k)) = VStr t
      /\ forall j, j < k -> value (cell_at (_ws p) r (c + 1 + j)) <> VStr t
  | None =>
      forall j, c < j <= max_column (_ws p) ->
                value (cell_at (_ws p) r j) <> VStr t
  end.
Proof.
  intros Hnd Hin. unfold column_map_of.
  fold (line_contents (_ws p) c r).
  rewrite (map_fields_lookup _ _ _ f t Hnd Hin), line_contents_columns.
  destruct (find _ _) as [cell |] eqn:Hfind.
  - apply find_map_seq_Some in Hfind.
    destruct Hfind as (k & Hk & -> & HP & Hbefore).
    change (col_idx (cell_at (_ws p) r (1 + c + k))) with (1 + c + k).
    replace (1 + c + k - c - 1) with k by lia.
    replace (c + 1 + k) with (1 + c + k) by lia.
    split; [lia |]. split; [now apply eq_str_iff |].
    intros j Hj Hv. specialize (Hbefore j Hj).
    replace (c + 1 + j) with (1 + c + j) in Hv by lia.
    apply eq_str_iff in Hv. congruence.
  - intros j Hj Hv.
    pose proof (find_map_seq_None _ _ _ _ Hfind (j - (1 + c))) as Hn.
    replace (1 + c + (j - (1 + c))) with j in Hn by lia.
    apply eq_str_iff in Hv. rewrite Hv in Hn.
    assert (false = true) by (rewrite <- Hn; [reflexivity | lia]).
    discriminate.
Qed.

Lemma get_field_record_column (ws : Worksheet) (d : column_map) (c i k : nat)
  (f : Field) :
  dict_lookup d f = Some k -> c + 1 + k <= max_column ws ->
  get_field_record d (line_contents ws c i) f
  = inr (value (cell_at ws i (c + 1 + k))).
Proof.
  intros Hk Hle. unfold get_field_record. rewrite Hk.
  rewrite line_contents_columns, nth_error_map, nth_error_seq.
  destruct (Nat.ltb_spec k (max_column ws - c)); [| lia].
  replace (1 + c + k) with (c + 1 + k) by lia. reflexivity.
Qed.

(** X3: for a field listed once, with header text [t]: when the column
    map has an offset for the field, the header cell at that offset from
    the start column holds exactly [t], no cell before it (from the start
    column) does, and [get_field_record] on any row returns the value of
    the cell of that row in the same sheet column, without an index
    error; when the map has no offset for it, no cell of the header row
    from the start column onward holds [t], and [get_field_record] returns
    [None] on every row. *)
Theorem column_map_reads_header_column :
  forall (p : BBVAParser) (r c : nat) (f : Field) (t : string),
    NoDup (map fst (fields p)) -> In (f, t) (fields p) ->
    match dict_lookup (column_map_of p r c) f with
    | Some k =>
        c + 1 + k <= max_column (_ws p)
        /\ value (cell_at (_ws p) r (c + 1 + k)) = VStr t
        /\ (forall j, j < k -> value (cell_at (_ws p) r (c + 1 + j)) <> VStr t)
        /\ (forall i,
              get_field_record (column_map_of p r c)
                (line_contents (_ws p) c i) f
              = inr (value (cell_at (_ws p) i (c + 1 + k))))
    | None =>
        (forall j, c < j <= max_column (_ws p) ->
                   value (cell_at (_ws p) r j) <> VStr t)
        /\ (forall cells,
              get_field_record (column_map_of p r c) cells f = inr VNone)
    end.
Proof.
  intros p r c f t Hnd Hin.
  pose proof (column_map_lookup_spec p r c f t Hnd Hin) as Hspec.
  destruct (dict_lookup (column_map_of p r c) f) as [k |] eqn:Hk.
  - destruct Hspec as (Hle & Hv & Hfirst).
    repeat split; auto.
    intros i. now apply get_field_record_column.
  - split; [exact Hspec |].
    intros cells. unfold get_field_record. now rewrite Hk.
Qed.

(** The field tables list every field once, and no header text twice. *)
Lemma create_fields_enum_cases (locale : string) :
  create_fields_enum locale = table_of FIELD_MAPPINGS "es"
  \/ create_fields_enum locale = table_of FIELD_MAPPINGS "it".
Proof.
  unfold create_fields_enum, has_locale, table_of, FIELD_MAPPINGS.
  cbn [assoc_get].
  destruct (String.eqb_spec "es" locale) as [<- | _]; [now left |].
  destruct (String.eqb_spec "it" locale) as [<- | _]; [now right |].
  now left.
Qed.

Lemma create_fields_enum_NoDup (locale : string) :
  NoDup (map fst (create_fields_enum locale))
  /\ NoDup (map snd (create_fields_enum locale)).
Proof.
  destruct (create_fields_enum_cases locale) as [-> | ->]; split;
    repeat (constructor; [simpl; intuition discriminate |]); constructor.
Qed.

Lemma column_map_reads_header_column_witness :
  (0 + 1 + 3 <= max_column (_ws blank_row_doc)
   /\ value (cell_at (_ws blank_row_doc) 1 (0 + 1 + 3)) = VStr "Importe"
   /\ (forall j, j < 3 ->
         value (cell_at (_ws blank_row_doc) 1 (0 + 1 + j)) <> VStr "Importe")
   /\ (forall i,
         get_field_record (column_map_of blank_row_doc 1 0)
           (line_contents (_ws blank_row_doc) 0 i) AMOUNT
         = inr (value (cell_at (_ws blank_row_doc) i (0 + 1 + 3)))))
  /\ ((forall j, 0 < j <= max_column (_ws blank_row_doc) ->
         value (cell_at (_ws blank_row_doc) 1 j) <> VStr "F.Valor")
      /\ (forall cells,
            get_field_record (column_map_of blank_row_doc 1 0) cells VALUE_DATE
            = inr VNone)).
Proof.
  split.
  - apply (column_map_reads_header_column blank_row_doc 1 0 AMOUNT "Importe").
    + apply (create_fields_enum_NoDup "es").
    + simpl. auto 10.
  - apply (column_map_reads_header_column blank_row_doc 1 0 VALUE_DATE
             "F.Valor").
    + apply (create_fields_enum_NoDup "es").
    + simpl. auto.
Defined.

(** ** Header location and the column map together *)

Lemma locate_header_rows (fields_values : list string) :
  forall (rows : list (list Cell)) (r c : nat),
    locate_header fields_values rows = Some (r, c) ->
    exists cells cell,
      In cells rows
      /\ find (is_header_cell fields_values) cells = Some cell
      /\ row cell = r /\ col_idx cell - 1 = c.
Proof.
  induction rows as [| cells rows IH]; intros r c H; simpl in H.
  - discriminate.
  - destruct (find (is_header_cell fields_values) cells) as [cell |] eqn:Hf.
    + injection H as <- <-. exists cells, cell. repeat split; auto.
      now left.
    + destruct (IH r c H) as (cells' & cell & Hin & Hrest).
      exists cells', cell. split; [now right | exact Hrest].
Qed.

(** The located cell is the leftmost header cell of its row. *)
Lemma located_cell_leftmost (fields_values : list string) (ws : Worksheet)
  (r c : nat) :
  locate_header fields_values (ws_iter ws) = Some (r, c) ->
  is_header_cell fields_values (cell_at ws r (c + 1)) = true
  /\ forall j, 1 <= j <= c ->
       is_header_cell fields_values (cell_at ws r j) = false.
Proof.
  intros H. apply locate_header_rows in H.
  destruct H as (cells & cell & Hin & Hfind & Hrow & Hcol).
  unfold ws_iter, cells_by_row in Hin. apply in_map_iff in Hin.
  destruct Hin as (r' & <- & _). unfold row_cells in Hfind.
  apply find_map_seq_Some in Hfind.
  destruct Hfind as (k & _ & -> & HP & Hbefore).
  change (row (cell_at ws r' (1 + k))) with r' in Hrow.
  change (col_idx (cell_at ws r' (1 + k))) with (1 + k) in Hcol.
  subst r'. assert (k = c) by lia. subst k.
  replace (c + 1) with (1 + c) by lia. split; [exact HP |].
  intros j Hj. specialize (Hbefore (j - 1)).
  replace (1 + (j - 1)) with j in Hbefore by lia. apply Hbefore. lia.
Qed.

Lemma header_text_is_header_cell (fs : list (Field * string)) (f : Field)
  (t : string) (cell : Cell) :
  In (f, t) fs -> value cell = VStr t ->
  is_header_cell (map (fun fd => lower (snd fd)) fs) cell = true.
Proof.
  intros Hin Hv. apply is_header_cell_iff. exists t, (f, t). auto.
Qed.

(** A field is in the column map exactly when some cell of the header
    row, in any column, holds its header text. *)
Lemma field_mapped_iff (p : BBVAParser) (r c : nat) (f : Field) (t : string) :
  NoDup (map fst (fields p)) -> In (f, t) (fields p) ->
  locate_header (map (fun fd => lower (snd fd)) (fields p)) (ws_iter (_ws p))
    = Some (r, c) ->
  dict_mem (column_map_of p r c) f = true
  <-> exists j, 1 <= j <= max_column (_ws p)
                /\ value (cell_at (_ws p) r j) = VStr t.
Proof.
  intros Hnd Hin Hloc. unfold dict_mem.
  pose proof (column_map_lookup_spec p r c f t Hnd Hin) as Hspec.
  apply located_cell_leftmost in Hloc. destruct Hloc as [_ Hleft].
  destruct (dict_lookup (column_map_of p r c) f) as [k |].
  - destruct Hspec as (Hle & Hv & _). split; [| reflexivity].
    intros _. exists (c + 1 + k). split; [lia | exact Hv].
  - split; [discriminate |]. intros (j & Hj & Hv). exfalso.
    destruct (Nat.le_gt_cases j c) as [Hjc | Hjc].
    + assert (Hj' : 1 <= j <= c) by lia. specialize (Hleft j Hj').
      rewrite (header_text_is_header_cell _ f t _ Hin Hv) in Hleft.
      discriminate.
    + apply (Hspec j); [lia | exact Hv].
Qed.

(** X4: once the header row is located, the column of a field is that of
    the leftmost cell of the whole header row that holds exactly the
    field's header text, and the field is left out of the map only when
    no cell of the row holds it: the start column cuts no header off. *)
Theorem column_map_leftmost_header :
  forall (p : BBVAParser) (r c : nat) (f : Field) (t : string),
    NoDup (map fst (fields p)) -> In (f, t) (fields p) ->
    locate_header (map (fun fd => lower (snd fd)) (fields p))
      (ws_iter (_ws p)) = Some (r, c) ->
    match dict_lookup (column_map_of p r c) f with
    | Some k =>
        value (cell_at (_ws p) r (c + 1 + k)) = VStr t
        /\ forall j, 1 <= j < c + 1 + k ->
             value (cell_at (_ws p) r j) <> VStr t
    | None =>
        forall j, 1 <= j <= max_column (_ws p) ->
                  value (cell_at (_ws p) r j) <> VStr t
    end.
Proof.
  intros p r c f t Hnd Hin Hloc.
  pose proof (column_map_lookup_spec p r c f t Hnd Hin) as Hspec.
  pose proof (proj2 (located_cell_leftmost _ _ _ _ Hloc)) as Hleft.
  assert (Hbefore : forall j, 1 <= j <= c ->
                      value (cell_at (_ws p) r j) <> VStr t).
  { intros j Hj Hv. specialize (Hleft j Hj).
    rewrite (header_text_is_header_cell _ f t _ Hin Hv) in Hleft.
    discriminate. }
  destruct (dict_lookup (column_map_of p r c) f) as [k |].
  - destruct Hspec as (_ & Hv & Hfirst). split; [exact Hv |].
    intros j Hj. destruct (Nat.le_gt_cases j c) as [Hjc | Hjc].
    + apply Hbefore. lia.
    + replace j with (c + 1 + (j - (c + 1))) by lia. apply Hfirst. lia.
  - intros j Hj. destruct (Nat.le_gt_cases j c) as [Hjc | Hjc].
    + apply Hbefore. lia.
    + apply Hspec. lia.
Qed.

Lemma column_map_leftmost_header_witness :
  value (cell_at (_ws titled_doc) 2 (1 + 1 + 2)) = VStr "Importe"
  /\ forall j, 1 <= j < 1 + 1 + 2 ->
       value (cell_at (_ws titled_doc) 2 j) <> VStr "Importe".
Proof.
  apply (column_map_leftmost_header titled_doc 2 1 AMOUNT "Importe").
  - apply (create_fields_enum_NoDup "es").
  - simpl. auto 10.
  - reflexivity.
Defined.

Lemma column_map_field_listed (p : BBVAParser) (r c k : nat) (f : Field) :
  NoDup (map fst (fields p)) ->
  dict_lookup (column_map_of p r c) f = Some k ->
  exists t, In (f, t) (fields p).
Proof.
  intros Hnd H. unfold column_map_of, map_fields in H.
  rewrite (map_fields_fold _ _ f (fields p) [] Hnd) in H.
  destruct (find (fun fd => Field_eqb (fst fd) f) (fields p))
    as [[g t] |] eqn:Hfind; [| discriminate].
  apply find_some in Hfind. destruct Hfind as [Hin Hg].
  apply Field_eqb_eq in Hg. simpl in Hg. subst g. now exists t.
Qed.

Lemma NoDup_map_snd_inj {A B} (l : list (A * B)) (a b : A) (t : B) :
  NoDup (map snd l) -> In (a, t) l -> In (b, t) l -> a = b.
Proof.
  induction l as [| [x u] l IH]; intros Hnd Ha Hb.
  - destruct Ha.
  - simpl in Hnd. inversion Hnd as [| ? ? Hnotin Hnd']; subst.
    destruct Ha as [Ea | Ha], Hb as [Eb | Hb].
    + congruence.
    + injection Ea as -> ->. exfalso. apply Hnotin.
      apply in_map_iff. now exists (b, t).
    + injection Eb as -> ->. exfalso. apply Hnotin.
      apply in_map_iff. now exists (a, t).
    + now apply IH.
Qed.

(** X5: with a field table that lists every field once and no header
    text twice, as the tables of both locales do, two different fields
    never get the same column. *)
Theorem column_map_injective :
  forall (p : BBVAParser) (r c k : nat) (f1 f2 : Field),
    NoDup (map fst (fields p)) -> NoDup (map snd (fields p)) ->
    dict_lookup (column_map_of p r c) f1 = Some k ->
    dict_lookup (column_map_of p r c) f2 = Some k ->
    f1 = f2.
Proof.
  intros p r c k f1 f2 Hfst Hsnd H1 H2.
  destruct (column_map_field_listed p r c k f1 Hfst H1) as [t1 Hin1].
  destruct (column_map_field_listed p r c k f2 Hfst H2) as [t2 Hin2].
  pose proof (column_map_lookup_spec p r c f1 t1 Hfst Hin1) as S1.
  pose proof (column_map_lookup_spec p r c f2 t2 Hfst Hin2) as S2.
  rewrite H1 in S1. rewrite H2 in S2.
  destruct S1 as (_ & V1 & _). destruct S2 as (_ & V2 & _).
  rewrite V1 in V2. injection V2 as <-.
  exact (NoDup_map_snd_inj _ _ _ _ Hsnd Hin1 Hin2).
Qed.

Lemma column_map_injective_witness :
  dict_lookup (column_map_of blank_row_doc 1 0) AMOUNT = Some 3
  /\ AMOUNT = AMOUNT.
Proof.
  split; [reflexivity |].
  apply (column_map_injective blank_row_doc 1 0 3 AMOUNT AMOUNT).
  - apply (create_fields_enum_NoDup "es").
  - apply (create_fields_enum_NoDup "es").
  - reflexivity.
  - reflexivity.
Defined.

(** ** Required columns *)

(** X6: with the header row located, [parse] raises "No date column
    found" when no cell of the header row holds the DATE header text;
    "No amount column found" when the row holds the DATE text and not the
    AMOUNT text; "No concept column" when it holds both and not the
    CONCEPT text.  The texts are compared exactly, in any column of the
    row. *)
Theorem missing_required_column :
  forall (RT : Runtime) (p : BBVAParser) (r c : nat)
         (date_text amount_text concept_text : string),
    NoDup (map fst (fields p)) ->
    In (DATE, date_text) (fields p) ->
    In (AMOUNT, amount_text) (fields p) ->
    In (CONCEPT, concept_text) (fields p) ->
    locate_header (map (fun fd => lower (snd fd)) (fields p))
      (ws_iter (_ws p)) = Some (r, c) ->
    let holds t :=
      exists j, 1 <= j <= max_column (_ws p)
                /\ value (cell_at (_ws p) r j) = VStr t in
    (~ holds date_text ->
     parse p = inl (ValueError "No date column found"))
    /\ (holds date_text -> ~ holds amount_text ->
        parse p = inl (ValueError "No amount column found"))
    /\ (holds date_text -> holds amount_text -> ~ holds concept_text ->
        parse p = inl (ValueError "No concept column")).
Proof.
  intros RT p r c date_text amount_text concept_text Hnd HD HA HC Hloc holds.
  pose proof (field_mapped_iff p r c DATE date_text Hnd HD Hloc) as MD.
  pose proof (field_mapped_iff p r c AMOUNT amount_text Hnd HA Hloc) as MA.
  pose proof (field_mapped_iff p r c CONCEPT concept_text Hnd HC Hloc) as MC.
  fold (holds date_text) in MD. fold (holds amount_text) in MA.
  fold (holds concept_text) in MC.
  assert (Hmem : forall f t,
             (dict_mem (column_map_of p r c) f = true <-> holds t) ->
             ~ holds t -> dict_mem (column_map_of p r c) f = false).
  { intros f t M Hn. destruct (dict_mem (column_map_of p r c) f);
      [| reflexivity]. exfalso. apply Hn. now apply M. }
  unfold parse, parse_statement. rewrite Hloc.
  fold (column_map_of p r c).
  split; [| split].
  - intros HnD. now rewrite (Hmem _ _ MD HnD).
  - intros HhD HnA. rewrite (proj2 MD HhD). now rewrite (Hmem _ _ MA HnA).
  - intros HhD HhA HnC. rewrite (proj2 MD HhD), (proj2 MA HhA).
    now rewrite (Hmem _ _ MC HnC).
Qed.

Lemma missing_required_column_witness :
  parse (RT := Reference.runtime) no_amount_doc
  = inl (ValueError "No amount column found").
Proof.
  apply (proj1 (proj2
           (missing_required_column Reference.runtime no_amount_doc 1 0
              "Fecha" "Importe" "Concepto"
              (proj1 (create_fields_enum_NoDup "es"))
              ltac:(simpl; auto 10) ltac:(simpl; auto 10)
              ltac:(simpl; auto 10) eq_refl))).
  - exists 1. split; [vm_compute; lia | reflexivity].
  - intros (j & Hj & Hv). vm_compute in Hj.
    assert (Hcases : j = 1 \/ j = 2 \/ j = 3) by lia.
    destruct Hcases as [-> | [-> | ->]]; discriminate Hv.
Defined.

(** ** The end of the row loop *)

(** X7: the loop of [split_records] always ends: started at a row [sr]
    of at least 1, it returns the rows from [sr] up to the first row
    without a truthy cell, which is at the latest the row below the last
    row of the sheet, so it returns at most [max_row + 1 - sr] records;
    and a parsed statement has at most one transaction for each row below
    the header. *)
Theorem split_records_ends :
  forall (ws : Worksheet) (sr sc : nat),
    1 <= sr ->
    (exists n,
       split_records ws sr sc
       = Some (map (line_contents ws sc) (seq sr n))
       /\ n <= max_row ws + 1 - sr
       /\ (forall i, i < n -> has_value ws sc (sr + i) = true)
       /\ has_value ws sc (sr + n) = false)
    /\ (forall (RT : Runtime) (p : BBVAParser) (st : Statement) (r c : nat),
          _ws p = ws ->
          parse p = inr st ->
          locate_header (map (fun f => lower (snd f)) (fields p))
            (ws_iter ws) = Some (r, c) ->
          List.length (lines st) <= max_row ws - r).
Proof.
  intros ws sr sc Hsr.
  assert (Hends : forall sr' sc', 1 <= sr' ->
            exists n,
              n <= max_row ws + 1 - sr'
              /\ (forall i, i < n -> has_value ws sc' (sr' + i) = true)
              /\ has_value ws sc' (sr' + n) = false).
  { intros sr' sc' Hsr'.
    destruct (first_row_without_value ws sc' (S (max_row ws)) sr')
      as (n & _ & Hrows & Hstop).
    - destruct (has_value ws sc' (sr' + S (max_row ws))) eqn:H;
        [| reflexivity].
      apply has_value_in_sheet in H. lia.
    - exists n. split; [| split; assumption].
      destruct n as [| n]; [lia |].
      pose proof (has_value_in_sheet ws sc' (sr' + n)
                    (Hrows n (Nat.lt_succ_diag_r n))).
      lia. }
  split.
  - destruct (Hends sr sc Hsr) as (n & Hn & Hrows & Hstop).
    exists n. split; [now apply split_records_spec |]. auto.
  - intros RT p st r c Hws Hparse Hloc. subst ws.
    destruct (Hends (r + 1) c) as (n & Hn & Hrows & Hstop); [lia |].
    pose proof (parse_lines_of_rows p st r c n Hparse Hloc Hrows Hstop) as HF.
    apply Forall2_length in HF. rewrite length_map, length_seq in HF.
    lia.
Qed.

Lemma split_records_ends_witness :
  exists n,
    split_records (_ws blank_row_doc) 2 0
    = Some (map (line_contents (_ws blank_row_doc) 0) (seq 2 n))
    /\ n <= max_row (_ws blank_row_doc) + 1 - 2
    /\ (forall i, i < n -> has_value (_ws blank_row_doc) 0 (2 + i) = true)
    /\ has_value (_ws blank_row_doc) 0 (2 + n) = false.
Proof.
  apply (proj1 (split_records_ends (_ws blank_row_doc) 2 0
                  ltac:(lia))).
Defined.

(** ** The column of the balance *)

Lemma iter_row_balance (ws : Worksheet) (d : column_map) (c k i : nat) :
  dict_lookup d BALANCE = Some k ->
  get_field_record d
    (skipn c (row_cells ws (if (c =? 0)%nat then 1 else c) (max_column ws) i))
    BALANCE
  = if (balance_column c k <=? max_column ws)%nat
    then inr (value (cell_at ws i (balance_column c k)))
    else inl IndexError.
Proof.
  intros Hk. unfold get_field_record, row_cells, balance_column. rewrite Hk.
  set (min_col := if (c =? 0)%nat then 1 else c).
  rewrite nth_error_skipn, nth_error_map, nth_error_seq.
  destruct (Nat.ltb_spec (c + k) (max_column ws + 1 - min_col));
    destruct (Nat.leb_spec (min_col + c + k) (max_column ws));
    try lia; simpl; [| reflexivity].
  now rewrite Nat.add_assoc.
Qed.

Section BalanceColumnFacts.

Context {RT : Runtime}.

(** The balance loop of [parse], for a header at [(r, c)] and the offset
    [k] of BALANCE. *)
Lemma scan_balance_column (p : BBVAParser) (r c k : nat)
  (captured : option Decimal) :
  c < max_column (_ws p) ->
  dict_lookup (column_map_of p r c) BALANCE = Some k ->
  scan_balance (column_map_of p r c) c (iter_rows (_ws p) (r + 1) c) None
    = inr captured ->
  (r < max_row (_ws p) -> balance_column c k <= max_column (_ws p))
  /\ match find truthy
             (rev (map (fun i => value (cell_at (_ws p) i (balance_column c k)))
                       (seq (r + 1) (max_row (_ws p) - r)))) with
     | Some b => parse_value_amount b = inr captured
     | None => captured = None
     end.
Proof.
  intros Hcol Hk Hscan.
  unfold iter_rows, cells_by_row in Hscan.
  replace (if (r + 1 =? 0)%nat then 1 else r + 1) with (r + 1) in Hscan
    by (destruct (Nat.eqb_spec (r + 1) 0); lia).
  replace (max_row (_ws p) + 1 - (r + 1)) with (max_row (_ws p) - r) in Hscan
    by lia.
  apply scan_balance_last in Hscan.
  - destruct Hscan as (vals & HF & Hlast).
    assert (Hrows : forall i v,
              get_field_record (column_map_of p r c)
                (skipn c (row_cells (_ws p) (if (c =? 0)%nat then 1 else c)
                            (max_column (_ws p)) i)) BALANCE = inr v ->
              balance_column c k <= max_column (_ws p)
              /\ v = value (cell_at (_ws p) i (balance_column c k))).
    { intros i v Hv. rewrite (iter_row_balance _ _ c k i Hk) in Hv.
      destruct (Nat.leb_spec (balance_column c k) (max_column (_ws p)));
        [| discriminate].
      injection Hv as <-. auto. }
    split.
    + intros Hr.
      destruct (max_row (_ws p) - r) as [| m] eqn:Hm; [lia |].
      simpl in HF. inversion HF as [| ? v ? ? Hv _]; subst.
      exact (proj1 (Hrows _ _ Hv)).
    + apply (Forall2_map_eq _ _
               (fun i => value (cell_at (_ws p) i (balance_column c k)))) in HF.
      * now subst vals.
      * intros i v _ Hv. exact (proj2 (Hrows _ _ Hv)).
  - apply Forall_forall. intros cells Hin. apply in_map_iff in Hin.
    destruct Hin as (i & <- & _). unfold row_cells.
    destruct (max_column (_ws p) + 1 - (if (c =? 0)%nat then 1 else c))
      as [| n] eqn:Hn.
    + destruct (Nat.eqb_spec c 0); lia.
    + discriminate.
Qed.

End BalanceColumnFacts.

(** X8: the balance loop reads, in every row below the header down to
    the last row of the sheet, the cell of the sheet column
    [balance_column c k], which lies [c - 1] columns to the right of the
    BALANCE column when the header starts at the 0-based column [c] of at
    least 2; the starting balance of the statement is the value of the
    last truthy cell among them, or zero. *)
Theorem start_balance_column :
  forall (RT : Runtime) (p : BBVAParser) (st : Statement) (r c k : nat),
    parse p = inr st ->
    locate_header (map (fun f => lower (snd f)) (fields p)) (ws_iter (_ws p))
      = Some (r, c) ->
    dict_lookup (column_map_of p r c) BALANCE = Some k ->
    balance_column c k = (c + 1 + k) + (c - 1)
    /\ (r < max_row (_ws p) -> balance_column c k <= max_column (_ws p))
    /\ exists captured : option Decimal,
         match find truthy
                 (rev (map (fun i =>
                              value (cell_at (_ws p) i (balance_column c k)))
                           (seq (r + 1) (max_row (_ws p) - r)))) with
         | Some b => parse_value_amount b = inr captured
         | None => captured = None
         end
         /\ start_balance st = Some (balance_or_zero captured).
Proof.
  intros RT p st r c k Hparse Hloc Hk.
  split.
  { unfold balance_column. destruct (Nat.eqb_spec c 0); lia. }
  apply parse_inv in Hparse.
  destruct Hparse as (st0 & Hparse & _ & _ & Hfinal).
  apply parse_statement_inv in Hparse.
  destruct Hparse as (r' & c' & records & Hloc' & _ & _ & _ & Hscan & _).
  rewrite Hloc in Hloc'. injection Hloc' as <- <-.
  apply located_row_positive in Hloc. destruct Hloc as [_ Hcol].
  destruct (scan_balance_column p r c k _ Hcol Hk Hscan) as [Hin Hlast].
  split; [exact Hin |].
  exists (start_balance st0). split; [exact Hlast | exact Hfinal].
Qed.

Lemma start_balance_column_witness :
  exists st,
    parse (RT := Reference.runtime) shifted_balance_doc = inr st
    /\ balance_column 2 1 = 5
    /\ value (cell_at (_ws shifted_balance_doc) 2 4) = VInt 110
    /\ value (cell_at (_ws shifted_balance_doc) 2 5) = VInt 10
    /\ start_balance st = Some (Dec 10 0).
Proof.
  eexists. split; [vm_compute; reflexivity |].
  split; [reflexivity |]. split; [reflexivity |]. split; [reflexivity |].
  destruct (start_balance_column Reference.runtime shifted_balance_doc _ 1 2 1
              ltac:(vm_compute; reflexivity) eq_refl eq_refl)
    as (_ & _ & captured & Hlast & Hfinal).
  vm_compute in Hlast. injection Hlast as <-. exact Hfinal.
Defined.

(** X9: when the header row is located with its three required columns,
    the sheet has a row below the header and the column the balance loop
    reads lies beyond the last column of the sheet, [parse] raises
    [IndexError]. *)
Theorem balance_column_out_of_range :
  forall (RT : Runtime) (p : BBVAParser) (r c k : nat),
    locate_header (map (fun f => lower (snd f)) (fields p)) (ws_iter (_ws p))
      = Some (r, c) ->
    dict_mem (column_map_of p r c) DATE = true ->
    dict_mem (column_map_of p r c) AMOUNT = true ->
    dict_mem (column_map_of p r c) CONCEPT = true ->
    dict_lookup (column_map_of p r c) BALANCE = Some k ->
    r < max_row (_ws p) ->
    max_column (_ws p) < balance_column c k ->
    parse p = inl IndexError.
Proof.
  intros RT p r c k Hloc HD HA HC Hk Hr Hout.
  pose proof (located_row_positive _ _ _ _ Hloc) as [_ Hcol].
  unfold parse, parse_statement. rewrite Hloc.
  fold (column_map_of p r c). rewrite HD, HA, HC. simpl negb. cbv iota.
  unfold iter_rows, cells_by_row.
  replace (if (r + 1 =? 0)%nat then 1 else r + 1) with (r + 1)
    by (destruct (Nat.eqb_spec (r + 1) 0); lia).
  destruct (max_row (_ws p) + 1 - (r + 1)) as [| m] eqn:Hm; [lia |].
  cbn [seq map scan_balance].
  set (first_row := row_cells (_ws p) (if (c =? 0)%nat then 1 else c)
                      (max_column (_ws p)) (r + 1)).
  assert (Hrow : exists cell cells, first_row = cell :: cells).
  { unfold first_row, row_cells.
    destruct (max_column (_ws p) + 1 - (if (c =? 0)%nat then 1 else c))
      as [| n] eqn:Hn.
    - destruct (Nat.eqb_spec c 0); lia.
    - simpl. eauto. }
  destruct Hrow as (cell & cells & Hrow).
  rewrite Hrow at 2. cbn [scan_balance_cells].
  unfold first_row. rewrite (iter_row_balance _ _ c k (r + 1) Hk).
  destruct (Nat.leb_spec (balance_column c k) (max_column (_ws p))); [lia |].
  reflexivity.
Qed.

Lemma balance_column_out_of_range_witness :
  parse (RT := Reference.runtime) shifted_doc = inl IndexError.
Proof.
  apply (balance_column_out_of_range Reference.runtime shifted_doc 1 2 3);
    try reflexivity; vm_compute; lia.
Defined.

(** ** The range of the classifier *)

Lemma table_values_Forall (P : string -> Prop)
  (tbls : list (string * list (string * string))) (locale : string) :
  Forall (fun lt => Forall (fun kv => P (snd kv)) (snd lt)) tbls ->
  Forall (fun kv => P (snd kv)) (table_of tbls locale).
Proof.
  intros Hall. unfold table_of.
  destruct (assoc_get tbls locale) as [tbl |] eqn:Htbl; [| constructor].
  apply assoc_get_In in Htbl. rewrite Forall_forall in Hall.
  exact (Hall _ Htbl).
Qed.

Lemma TYPE_MAPPING_tags (locale : string) :
  Forall (fun kv => table_tag (snd kv)) (table_of TYPE_MAPPING locale).
Proof.
  apply table_values_Forall.
  repeat (constructor;
          [repeat (constructor; [split; [reflexivity | discriminate] |]);
           constructor |]).
  constructor.
Qed.

Lemma TYPE_MAPPING_PREFIXES_tags (locale : string) :
  Forall (fun kv => table_tag (snd kv)) (table_of TYPE_MAPPING_PREFIXES locale).
Proof.
  apply table_values_Forall.
  repeat (constructor;
          [repeat (constructor; [split; [reflexivity | discriminate] |]);
           constructor |]).
  constructor.
Qed.

Lemma dict_get_tag (locale : string) (v : pyval) (t : string) :
  dict_get (table_of TYPE_MAPPING locale) v = Some t -> table_tag t.
Proof.
  destruct v; simpl; try discriminate. intros H.
  apply assoc_get_In in H.
  pose proof (TYPE_MAPPING_tags locale) as Hall.
  rewrite Forall_forall in Hall. exact (Hall _ H).
Qed.

Lemma match_prefixes_tag (concept : pyval) :
  forall (tbl : list (string * string)) (t : string) (src : pyval),
    Forall (fun kv => table_tag (snd kv)) tbl ->
    match_prefixes tbl concept = inr (t, src) ->
    (table_tag t /\ src = concept /\ exists s, concept = VStr s)
    \/ (t = "OTHER" /\ src = VNone).
Proof.
  induction tbl as [| [p t'] tbl IH]; intros t src Hall H; simpl in H.
  - right. injection H as <- <-. auto.
  - inversion Hall as [| ? ? Hhd Htl]; subst. bind_inv H.
    destruct concept as [| s | | | |]; simpl in Ha; try discriminate.
    injection Ha as <-. destruct (prefix p s).
    + left. injection H as <- <-. eauto.
    + now apply IH.
Qed.

(** X10: whatever the locale and the cell values, a type tag returned by
    the classifier is one of the library's transaction types, so the
    type check of [assert_valid] cannot fail on it; the source returned
    with it is the concept, the movement or nothing, and it is nothing
    exactly when the tag is "OTHER". *)
Theorem get_transaction_type_range :
  forall (locale : string) (concept movement : pyval) (t : string)
         (src : pyval),
    get_transaction_type locale concept movement = inr (t, src) ->
    str_in t TRANSACTION_TYPES = true
    /\ (src = concept \/ src = movement \/ src = VNone)
    /\ (t = "OTHER" <-> src = VNone).
Proof.
  intros locale concept movement t src H. unfold get_transaction_type in H.
  assert (Hexact : forall v tag,
            dict_get (table_of TYPE_MAPPING locale) v = Some tag ->
            table_tag tag /\ v <> VNone).
  { intros v tag Hget. split; [exact (dict_get_tag _ _ _ Hget) |].
    intros ->. discriminate Hget. }
  destruct (truthy_opt (dict_get (table_of TYPE_MAPPING locale) concept))
    eqn:Hc.
  - destruct (dict_get (table_of TYPE_MAPPING locale) concept) as [tag |]
      eqn:Hget; [| discriminate].
    injection H as <- <-. destruct (Hexact _ _ Hget) as [[Hin Hne] Hv].
    split; [exact Hin |]. split; [now left |]. split; congruence.
  - destruct (truthy_opt (dict_get (table_of TYPE_MAPPING locale) movement))
      eqn:Hm.
    + destruct (dict_get (table_of TYPE_MAPPING locale) movement) as [tag |]
        eqn:Hget; [| discriminate].
      injection H as <- <-. destruct (Hexact _ _ Hget) as [[Hin Hne] Hv].
      split; [exact Hin |]. split; [now right; left |]. split; congruence.
    + apply match_prefixes_tag in H; [| apply TYPE_MAPPING_PREFIXES_tags].
      destruct H as [([Hin Hne] & -> & s & ->) | [-> ->]].
      * split; [exact Hin |]. split; [now left |]. split; congruence.
      * split; [reflexivity |]. split; [now right; right |]. tauto.
Qed.

Lemma get_transaction_type_range_witness :
  str_in "ATM" TRANSACTION_TYPES = true
  /\ (VStr "Prelievo contanti" = VStr "Prelievo contanti"
      \/ VStr "Prelievo contanti" = VNone \/ VStr "Prelievo contanti" = VNone)
  /\ ("ATM" = "OTHER" <-> VStr "Prelievo contanti" = VNone).
Proof.
  apply (get_transaction_type_range "it" (VStr "Prelievo contanti") VNone).
  reflexivity.
Defined.

(** ** A concept that is not a text *)

Lemma match_prefixes_not_text (concept : pyval) (tbl : list (string * string)) :
  (forall s, concept <> VStr s) -> tbl <> [] ->
  match_prefixes tbl concept = inl AttributeError.
Proof.
  intros Hne Htbl. destruct tbl as [| [p t] tbl]; [congruence |].
  simpl. destruct concept; try reflexivity. now destruct (Hne s).
Qed.

(** X11: for the locales "es" and "it", a concept that is not a text (an
    empty cell, a number, a date) is classified by the movement when the
    movement is in the exact-type table: the tag is the entry of the
    movement in that table and the source is the movement; otherwise the
    classifier raises [AttributeError], and no transaction is built from
    a row with such a concept and movement. *)
Theorem concept_not_text :
  forall (locale : string) (concept movement : pyval),
    locale = "es" \/ locale = "it" ->
    (forall s, concept <> VStr s) ->
    (exact_match locale movement = true ->
     exists t,
       dict_get (table_of TYPE_MAPPING locale) movement = Some t
       /\ get_transaction_type locale concept movement = inr (t, movement))
    /\ (exact_match locale movement = false ->
        get_transaction_type locale concept movement = inl AttributeError
        /\ forall (RT : Runtime) (d : column_map) (acct : option BankAccount)
                  (cells : list Cell) (sl : StatementLine),
             get_field_record d cells CONCEPT = inr concept ->
             get_field_record d cells MOVEMENT = inr movement ->
             parse_record locale d acct cells <> inr sl).
Proof.
  intros locale concept movement Hloc Hne.
  assert (Hc : dict_get (table_of TYPE_MAPPING locale) concept = None).
  { destruct concept; try reflexivity. now destruct (Hne s). }
  assert (Hprefix : table_of TYPE_MAPPING_PREFIXES locale <> []).
  { destruct Hloc as [-> | ->]; discriminate. }
  assert (Hraise : exact_match locale movement = false ->
            get_transaction_type locale concept movement
            = inl AttributeError).
  { intros Hm. unfold get_transaction_type. rewrite Hc. simpl.
    unfold exact_match in Hm. rewrite Hm.
    now apply match_prefixes_not_text. }
  split.
  - intros Hm. unfold get_transaction_type. rewrite Hc. simpl.
    unfold exact_match in Hm. rewrite Hm.
    destruct (dict_get (table_of TYPE_MAPPING locale) movement) as [t |];
      [| discriminate].
    exists t. split; reflexivity.
  - intros Hm. split; [now apply Hraise |].
    intros RT d acct cells sl Hcc Hmm Hrec.
    apply parse_record_inv in Hrec.
    destruct Hrec as (? & ? & concept' & movement' & ? & tag & src & ?
                      & _ & _ & _ & _ & Hcc' & Hmm' & _ & Htype & _).
    rewrite Hcc in Hcc'. injection Hcc' as <-.
    rewrite Hmm in Hmm'. injection Hmm' as <-.
    rewrite (Hraise Hm) in Htype. discriminate.
Qed.

Lemma concept_not_text_witness :
  (exists t,
     dict_get (table_of TYPE_MAPPING "es") (VStr "Bizum") = Some t
     /\ get_transaction_type "es" VNone (VStr "Bizum") = inr (t, VStr "Bizum"))
  /\ get_transaction_type "es" VNone (VStr "Varios") = inl AttributeError.
Proof.
  split.
  - apply (proj1 (concept_not_text "es" VNone (VStr "Bizum")
                    (or_introl eq_refl) ltac:(discriminate))).
    reflexivity.
  - apply (proj2 (concept_not_text "es" VNone (VStr "Varios")
                    (or_introl eq_refl) ltac:(discriminate))).
    reflexivity.
Defined.

(** ** Currencies of the transactions *)

Lemma Forall2_nth_error {A B} (R : A -> B -> Prop) :
  forall (l1 : list A) (l2 : list B) (k : nat) (y : B),
    Forall2 R l1 l2 -> nth_error l2 k = Some y ->
    exists x, nth_error l1 k = Some x /\ R x y.
Proof.
  induction l1 as [| a l1 IH]; intros l2 k y HF Hk;
    inversion HF as [| ? b ? l2' Hab Hrest]; subst.
  - destruct k; discriminate.
  - destruct k as [| k]; simpl in Hk.
    + injection Hk as <-. exists a. auto.
    + now apply (IH l2' k y).
Qed.

(** The rows of the table below a row [sr] of at least 1: there is a
    first row without a truthy cell. *)
Lemma table_rows (ws : Worksheet) (sc sr : nat) :
  1 <= sr ->
  exists n,
    (forall i, i < n -> has_value ws sc (sr + i) = true)
    /\ has_value ws sc (sr + n) = false.
Proof.
  intros Hsr.
  destruct (first_row_without_value ws sc (S (max_row ws)) sr)
    as (n & _ & Hrows & Hstop).
  - destruct (has_value ws sc (sr + S (max_row ws))) eqn:H; [| reflexivity].
    apply has_value_in_sheet in H. lia.
  - exists n. auto.
Qed.

Lemma get_field_record_value (ws : Worksheet) (d : column_map) (c i j : nat)
  (f : Field) (v : pyval) :
  dict_lookup d f = Some j ->
  get_field_record d (line_contents ws c i) f = inr v ->
  v = value (cell_at ws i (c + 1 + j)).
Proof.
  intros Hj. unfold get_field_record. rewrite Hj.
  rewrite line_contents_columns, nth_error_map, nth_error_seq.
  destruct (j <? max_column ws - c)%nat; cbn [option_map]; intros H;
    [| discriminate H].
  replace (c + 1 + j) with (1 + c + j) by lia.
  unfold ret in H. congruence.
Qed.

Section CurrencyColumnFacts.

Context {RT : Runtime}.

Lemma unify_currency_all_none (ls : list StatementLine) :
  (forall sl, In sl ls -> currency sl = None) ->
  statement_currency ls = None.
Proof.
  intros H. unfold statement_currency.
  assert (Hall : forall i, unify_currency i None ls = None).
  { induction ls as [| sl ls IH]; intros i; simpl.
    - reflexivity.
    - unfold line_currency. rewrite (H sl (or_introl eq_refl)).
      apply IH. intros sl' Hin. apply H. now right. }
  now rewrite Hall.
Qed.

(** The transaction at position [k] of a parsed statement is the record
    of the row [k] rows below the first data row. *)
Lemma parse_line_of_row (p : BBVAParser) (st : Statement) (r c k : nat)
  (sl : StatementLine) :
  parse p = inr st ->
  locate_header (map (fun f => lower (snd f)) (fields p)) (ws_iter (_ws p))
    = Some (r, c) ->
  nth_error (lines st) k = Some sl ->
  parse_record (locale p) (column_map_of p r c) (bank_account_of p)
    (line_contents (_ws p) c (r + 1 + k)) = inr sl.
Proof.
  intros Hparse Hloc Hk.
  destruct (table_rows (_ws p) c (r + 1)) as (n & Hrows & Hstop); [lia |].
  pose proof (parse_lines_of_rows p st r c n Hparse Hloc Hrows Hstop) as HF.
  destruct (Forall2_nth_error _ _ _ k sl HF Hk) as (line & Hline & Hrec).
  rewrite nth_error_map, nth_error_seq in Hline.
  destruct (k <? n)%nat; simpl in Hline; [| discriminate].
  injection Hline as <-. exact Hrec.
Qed.

Lemma record_currency (p : BBVAParser) (r c i : nat) (sl : StatementLine) :
  parse_record (locale p) (column_map_of p r c) (bank_account_of p)
    (line_contents (_ws p) c i) = inr sl ->
  match dict_lookup (column_map_of p r c) CURRENCY with
  | Some j =>
      currency sl
      = (if truthy (value (cell_at (_ws p) i (c + 1 + j)))
         then Some (mk_Currency (value (cell_at (_ws p) i (c + 1 + j))))
         else None)
  | None => currency sl = None
  end.
Proof.
  intros Hrec. apply parse_record_inv in Hrec.
  destruct Hrec as (? & ? & ? & ? & ? & ? & ? & v & _ & _ & _ & _ & _ & _
                    & _ & _ & Hv & _ & _ & Hcur & _).
  destruct (dict_lookup (column_map_of p r c) CURRENCY) as [j |] eqn:Hj.
  - rewrite (get_field_record_value _ _ _ _ _ _ _ Hj Hv) in Hcur.
    exact Hcur.
  - unfold get_field_record in Hv. rewrite Hj in Hv.
    injection Hv as <-. exact Hcur.
Qed.

End CurrencyColumnFacts.

(** X12: in a parsed statement, the transaction at position [k] is built
    from the row [k] rows below the first data row, and its currency is
    the value of the cell of that row in the CURRENCY column when the
    value is truthy, and is absent otherwise; when the header row has no
    CURRENCY column, no transaction has a currency and the statement has
    none. *)
Theorem currency_of_transactions :
  forall (RT : Runtime) (p : BBVAParser) (st : Statement) (r c : nat),
    parse p = inr st ->
    locate_header (map (fun f => lower (snd f)) (fields p)) (ws_iter (_ws p))
      = Some (r, c) ->
    (forall k sl, nth_error (lines st) k = Some sl ->
       parse_record (locale p) (column_map_of p r c) (bank_account_of p)
         (line_contents (_ws p) c (r + 1 + k)) = inr sl
       /\ match dict_lookup (column_map_of p r c) CURRENCY with
          | Some j =>
              currency sl
              = (if truthy (value (cell_at (_ws p) (r + 1 + k) (c + 1 + j)))
                 then Some (mk_Currency
                              (value (cell_at (_ws p) (r + 1 + k)
                                        (c + 1 + j))))
                 else None)
          | None => currency sl = None
          end)
    /\ (dict_lookup (column_map_of p r c) CURRENCY = None ->
        stmt_currency st = None
        /\ forall sl, In sl (lines st) -> currency sl = None).
Proof.
  intros RT p st r c Hparse Hloc.
  assert (Hline : forall k sl, nth_error (lines st) k = Some sl ->
            parse_record (locale p) (column_map_of p r c) (bank_account_of p)
              (line_contents (_ws p) c (r + 1 + k)) = inr sl).
  { intros k sl Hk. exact (parse_line_of_row p st r c k sl Hparse Hloc Hk). }
  split.
  - intros k sl Hk. split; [now apply Hline |].
    exact (record_currency p r c (r + 1 + k) sl (Hline k sl Hk)).
  - intros Hnone.
    assert (Hall : forall sl, In sl (lines st) -> currency sl = None).
    { intros sl Hin. apply In_nth_error in Hin. destruct Hin as [k Hk].
      pose proof (record_currency p r c (r + 1 + k) sl (Hline k sl Hk)) as H.
      now rewrite Hnone in H. }
    split; [| exact Hall].
    apply parse_inv in Hparse.
    destruct Hparse as (st0 & Hst0 & Hlines & Hcur & _).
    apply parse_statement_inv in Hst0.
    destruct Hst0 as (? & ? & ? & _ & _ & _ & _ & _ & _ & _ & Hu).
    rewrite Hcur, Hu, <- Hlines. now apply unify_currency_all_none.
Qed.

Lemma currency_of_transactions_witness :
  exists st,
    parse (RT := Reference.runtime) no_currency_doc = inr st
    /\ stmt_currency st = None
    /\ forall sl, In sl (lines st) -> currency sl = None.
Proof.
  eexists. split.
  - vm_compute. reflexivity.
  - apply (proj2 (currency_of_transactions Reference.runtime no_currency_doc
                    _ 1 0 ltac:(vm_compute; reflexivity) eq_refl)).
    reflexivity.
Defined.
